(** * Modbus TCP test scripts of adam-6000-counter: a shallow embedding

    The four scripts under [archive/test-scripts] build a Modbus TCP
    "read holding registers" request with [struct.pack], parse the reply
    by hand (or through pymodbus) and assemble 32-bit counters from pairs
    of 16-bit registers.  Each script is embedded in a module of its own;
    [bytes] objects are lists of [byte], Python integers are [Z], and a
    Python call either returns a value or raises. *)

From Stdlib Require Import ZArith List Lia Bool.
From Stdlib Require Import Init.Byte Strings.Byte.
From stdpp Require Import gmap strings.
Import ListNotations.

Local Open Scope Z_scope.

(** ** Python outcomes *)

(** The exceptions the scripts can meet. *)
Inductive exn : Type :=
  | StructError        (* struct.error: bad argument or buffer size *)
  | IndexError         (* list index out of range *)
  | SocketError        (* socket.timeout, ConnectionRefusedError, ... *)
  | ModbusException    (* pymodbus.exceptions.ModbusException *)
  | UnicodeEncodeError. (* print of a text that stdout cannot encode *)

(** A call returns a value or raises. *)
Inductive py_result (A : Type) : Type :=
  | Returns (a : A)
  | Raises (e : exn).
Arguments Returns {A} a.
Arguments Raises {A} e.

(** Sequencing: an exception raised by the first statement skips the
    rest. Written [x ← m; k] below. *)
#[global] Instance py_bind : MBind py_result := fun A B k m =>
  match m with
  | Returns a => k a
  | Raises e => Raises e
  end.

(** [try: body / except Exception: return d]. *)
Definition try_except {A : Type} (body : py_result A) (d : A) : py_result A :=
  match body with
  | Returns a => Returns a
  | Raises _ => Returns d
  end.

(** [print(text)]: what the console can encode is given by [stdout]; a
    text it cannot encode raises. *)
Definition print (stdout : string -> bool) (text : string) : py_result unit :=
  if stdout text then Returns tt else Raises UnicodeEncodeError.

(** A [for] loop whose body may raise, threading the loop's variables. *)
Fixpoint for_each {I S : Type} (body : I -> S -> py_result S)
    (items : list I) (s : S) : py_result S :=
  match items with
  | [] => Returns s
  | i :: rest => s' ← body i s; for_each body rest s'
  end.

(** [range(0, n, 2)]. *)
Definition range_by_2 (n : nat) : list nat :=
  map (fun k => 2 * k)%nat (seq 0 (Nat.div2 (S n))).

(** [b[lo:hi]] on a bytes object: out-of-range bounds are clamped. *)
Definition slice {A : Type} (l : list A) (lo hi : nat) : list A :=
  firstn (hi - lo) (skipn lo l).

(** ** The [struct] module, big-endian standard sizes *)

Module Struct.

Inductive code : Type :=
  | H    (* unsigned short, 2 bytes *)
  | B.   (* unsigned char, 1 byte *)

Definition byte_val (b : byte) : Z := Z.of_N (Byte.to_N b).

Definition byte_of (v : Z) : py_result byte :=
  match Byte.of_N (Z.to_N v) with
  | Some b => Returns b
  | None => Raises StructError
  end.

(** One field; a value outside the field's range raises [struct.error]. *)
Definition pack_field (c : code) (v : Z) : py_result (list byte) :=
  match c with
  | H =>
      if (0 <=? v) && (v <=? 65535) then
        hi ← byte_of (v / 256);
        lo ← byte_of (v mod 256);
        Returns [hi; lo]
      else Raises StructError
  | B =>
      if (0 <=? v) && (v <=? 255) then
        b ← byte_of v; Returns [b]
      else Raises StructError
  end.

(** [struct.pack('>...', *args)]: the fields in order, no padding; a
    wrong number of arguments raises. *)
Fixpoint pack (fmt : list code) (args : list Z) : py_result (list byte) :=
  match fmt, args with
  | [], [] => Returns []
  | c :: fmt', v :: args' =>
      field ← pack_field c v;
      rest ← pack fmt' args';
      Returns (field ++ rest)
  | _, _ => Raises StructError
  end.

(** [struct.unpack('>H', buf)[0]]: the buffer must hold exactly two
    bytes, otherwise [struct.error]. *)
Definition unpack_H (buf : list byte) : py_result Z :=
  match buf with
  | [hi; lo] => Returns (byte_val hi * 256 + byte_val lo)
  | _ => Raises StructError
  end.

(** [struct.unpack('>HHHBB', buf)]: exactly eight bytes. *)
Definition unpack_HHHBB (buf : list byte)
  : py_result (Z * Z * Z * Z * Z) :=
  match buf with
  | [t1; t0; p1; p0; l1; l0; u; f] =>
      Returns (byte_val t1 * 256 + byte_val t0,
               byte_val p1 * 256 + byte_val p0,
               byte_val l1 * 256 + byte_val l0,
               byte_val u, byte_val f)
  | _ => Raises StructError
  end.

End Struct.

(** [buf[i]] on a bytes object: the byte as an integer, or [IndexError]. *)
Definition getitem (buf : list byte) (i : nat) : py_result Z :=
  match buf !! i with
  | Some b => Returns (Struct.byte_val b)
  | None => Raises IndexError
  end.

(** The transaction id of a frame: its first two bytes, big-endian. *)
Definition transaction_id_of (frame : list byte) : py_result Z :=
  Struct.unpack_H (slice frame 0 2).

(** Consecutive big-endian pairs of a byte string; a last byte without a
    partner is dropped.  The reference against which the parsing loops
    are compared. *)
Fixpoint registers_of_bytes (data : list byte) : list Z :=
  match data with
  | hi :: lo :: rest =>
      (Struct.byte_val hi * 256 + Struct.byte_val lo) :: registers_of_bytes rest
  | _ => []
  end.

(** The transport: connect, send the request, [recv(1024)], close.  The
    socket is outside the scripts; an exchange hands back the bytes
    received or raises. *)
Definition transport : Type := string -> Z -> list byte -> py_result (list byte).

(** ** check-registers.py *)

Module CheckRegisters.
Import Struct.

Definition transaction_id : Z := 1.
Definition protocol_id : Z := 0.
Definition length_field : Z := 6.
Definition function_code : Z := 3.

(** Lines 17-19: [struct.pack('>HHHBBHH', ...)]. *)
Definition request (unit_id start_reg count : Z) : py_result (list byte) :=
  pack [H; H; H; B; B; H; H]
    [transaction_id; protocol_id; length_field;
     unit_id; function_code; start_reg; count].

(** Lines 37-41: the loop over [reg_data]. *)
Definition extract_values (reg_data : list byte) : py_result (list Z) :=
  for_each
    (fun i values =>
       if (i + 1 <? length reg_data)%nat then
         val ← unpack_H (slice reg_data i (i + 2));
         Returns (values ++ [val])
       else Returns values)
    (range_by_2 (length reg_data)) [].

(** Lines 31-43: what is done with the bytes received. *)
Definition parse (response : list byte) : py_result (option (list Z)) :=
  if (length response <? 9)%nat then Returns None
  else
    let reg_data := skipn 9 response in
    values ← extract_values reg_data;
    Returns (Some values).

(** The body of the [try]. *)
Definition read_body (sock : transport) (host : string) (port : Z)
    (unit_id start_reg count : Z) : py_result (option (list Z)) :=
  req ← request unit_id start_reg count;
  response ← sock host port req;
  parse response.

(** [read_modbus_registers]: any exception gives [None]. *)
Definition read_modbus_registers (sock : transport) (host : string)
    (port : Z) (unit_id start_reg count : Z) : py_result (option (list Z)) :=
  try_except (read_body sock host port unit_id start_reg count) None.

Definition combine_32bit_counter (high_reg low_reg : Z) : Z :=
  Z.lor (Z.shiftl high_reg 16) low_reg.

Definition simulators : list (string * Z * string) :=
  [("localhost"%string, 5502, "SIM-6051-01"%string);
   ("localhost"%string, 5503, "SIM-6051-02"%string);
   ("localhost"%string, 5504, "SIM-6051-03"%string)].

(** What the script prints for one device. *)
Inductive line : Type :=
  | RawRegisters (regs : list Z)
  | Channel0 (counter0 : Z)
  | Channel1 (counter1 : Z)
  | FailedToRead.

(** Lines 68-81: [if regs:] is false for [None] and for the empty list. *)
Definition report (regs : option (list Z)) : list line :=
  match regs with
  | Some ((_ :: _) as regs) =>
      RawRegisters regs
      :: (if (2 <=? length regs)%nat
          then [Channel0 (combine_32bit_counter (nth 1 regs 0) (nth 0 regs 0))]
          else [])
      ++ (if (4 <=? length regs)%nat
          then [Channel1 (combine_32bit_counter (nth 3 regs 0) (nth 2 regs 0))]
          else [])
  | _ => [FailedToRead]
  end.

(** One pass over [simulators] (lines 62-81 and again 89-105): every
    device is read with unit 1, start register 0, count 4. *)
Definition pass (sock : transport) : list (py_result (list line)) :=
  map (fun '(host, port, device_id) =>
         regs ← read_modbus_registers sock host port 1 0 4;
         Returns (report regs))
      simulators.

(** The requests the script puts on the wire, in order, with the
    endpoint each one goes to: two passes over [simulators]. *)
Definition requests_sent : list (string * Z * py_result (list byte)) :=
  map (fun '(host, port, device_id) => (host, port, request 1 0 4))
      (simulators ++ simulators).

(** The transaction ids of the requests that go to one endpoint, in the
    order they are sent. *)
Definition transaction_ids_sent (host : string) (port : Z)
  : list (py_result Z) :=
  map (fun x => req ← x.2; transaction_id_of req)
      (filter (fun x => x.1.1 = host /\ x.1.2 = port) requests_sent).

End CheckRegisters.

(** ** test-modbus-connection.py *)

Module TestModbusConnection.
Import Struct.

Definition transaction_id : Z := 1.    (* 0x0001 *)
Definition protocol_id : Z := 0.       (* 0x0000 *)
Definition length_field : Z := 6.
Definition function_code : Z := 3.     (* 0x03 *)

(** Lines 23-32: [struct.pack('>HHHBHH', ...)] followed by
    [struct.pack('>H', register_count)].  The fifth code is [H]. *)
Definition create_modbus_read_request (unit_id start_address register_count : Z)
  : py_result (list byte) :=
  request ← pack [H; H; H; B; H; H]
              [transaction_id; protocol_id; length_field;
               unit_id; function_code; start_address];
  tail ← pack [H] [register_count];
  Returns (request ++ tail).

(** The text of the second component of the pair returned by
    [parse_modbus_response], with the values it interpolates. *)
Inductive message : Type :=
  | ResponseTooShort (len : nat)
  | ModbusError (function error_code : Z)
  | IncompleteResponseData
  | UnexpectedFunctionCode (function : Z).

(** Lines 51-54: the loop over [range(0, byte_count, 2)]. *)
Definition read_registers (response : list byte) (byte_count : Z)
  : py_result (list Z) :=
  for_each
    (fun i registers =>
       reg_value ← unpack_H (slice response (9 + i) (11 + i));
       Returns (registers ++ [reg_value]))
    (range_by_2 (Z.to_nat byte_count)) [].

(** [parse_modbus_response]: the pair [(registers, error)]. *)
Definition parse_modbus_response (response : list byte)
  : py_result (option (list Z) * option message) :=
  if (length response <? 9)%nat then
    Returns (None, Some (ResponseTooShort (length response)))
  else
    '(resp_transaction_id, resp_protocol_id, resp_length, resp_unit_id,
      resp_function_code) ← unpack_HHHBB (slice response 0 8);
    if negb (Z.land resp_function_code 128 =? 0) then
      error_code ← getitem response 8;
      Returns (None,
               Some (ModbusError (Z.land resp_function_code 127) error_code))
    else if resp_function_code =? 3 then
      byte_count ← getitem response 8;
      if Z.of_nat (length response) <? 9 + byte_count then
        Returns (None, Some IncompleteResponseData)
      else
        registers ← read_registers response byte_count;
        Returns (Some registers, None)
    else
      Returns (None, Some (UnexpectedFunctionCode resp_function_code)).

(** Lines 93-94: [registers[1] << 16 | registers[0]] when there are at
    least two registers. *)
Definition counter_value (registers : list Z) : option Z :=
  if (2 <=? length registers)%nat then
    Some (Z.lor (Z.shiftl (nth 1 registers 0) 16) (nth 0 registers 0))
  else None.

(** [test_modbus_connection]: [True] when a register list was parsed.
    Line 62 prints a text that holds [host] before the [try] is entered,
    so a host that the console cannot encode raises out of the function;
    [host] comes from the command line.  The texts printed inside the
    [try] hold [host] again (line 69) or are plain ASCII. *)
Definition test_modbus_connection (stdout : string -> bool)
    (sock : transport) (host : string) (port : Z) (unit_id : Z)
  : py_result bool :=
  _ ← print stdout host;
  try_except
    (_ ← print stdout host;
     request ← create_modbus_read_request unit_id 0 2;
     response ← sock host port request;
     '(registers, error) ← parse_modbus_response response;
     match error with
     | Some _ => Returns false
     | None => Returns true
     end)
    false.

(** [test_multiple_unit_ids]: the connection test for the unit ids 0, 1,
    2 and 255 in turn, with what each one answered. *)
Definition test_multiple_unit_ids (stdout : string -> bool)
    (sock : transport) (host : string) (port : Z)
  : py_result (list (Z * bool)) :=
  _ ← print stdout host;
  for_each
    (fun unit_id results =>
       success ← test_modbus_connection stdout sock host port unit_id;
       Returns (results ++ [(unit_id, success)]))
    [0; 1; 2; 255] [].

End TestModbusConnection.

(** ** simple-modbus-test.py *)

Module SimpleModbusTest.
Import Struct.

Definition transaction_id : Z := 1.
Definition protocol_id : Z := 0.
Definition length_field : Z := 6.
Definition unit_id : Z := 1.
Definition function_code : Z := 3.
Definition start_address : Z := 0.
Definition num_registers : Z := 2.

(** Lines 26-28. *)
Definition request : py_result (list byte) :=
  pack [H; H; H; B; B; H; H]
    [transaction_id; protocol_id; length_field;
     unit_id; function_code; start_address; num_registers].

(** Lines 43-60: the registers printed before [return True]; [None]
    stands for the paths that fall through to [return False]. *)
Definition parse (response : list byte) : py_result (option (list Z)) :=
  if (9 <=? length response)%nat then
    '(resp_trans_id, resp_proto_id, resp_length, resp_unit_id,
      resp_func_code) ← unpack_HHHBB (slice response 0 8);
    if resp_func_code =? function_code then
      byte_count ← getitem response 8;
      if 9 + byte_count <=? Z.of_nat (length response) then
        let data := slice response 9 (9 + Z.to_nat byte_count) in
        registers ← for_each
          (fun i registers =>
             reg_value ← unpack_H (slice data i (i + 2));
             Returns (registers ++ [reg_value]))
          (range_by_2 (length data)) [];
        Returns (Some registers)
      else Returns None
    else Returns None
  else Returns None.

(** What lines 41-62 print about a response. *)
Inductive line : Type :=
  | ResponseParsed (trans_id unit func : Z)   (* line 46 *)
  | DataByteCount (byte_count : Z)            (* line 50 *)
  | RegisterData (data : list byte)           (* line 53 *)
  | RegisterValues (registers : list Z)       (* line 59 *)
  | ErrorResponse (func : Z).                 (* line 62 *)

(** Lines 43-65 with their output: the lines printed and the value
    returned.  A function code other than 3 is printed as it is and the
    byte after it is not read. *)
Definition respond (response : list byte) : py_result (list line * bool) :=
  if (9 <=? length response)%nat then
    '(resp_trans_id, resp_proto_id, resp_length, resp_unit_id,
      resp_func_code) ← unpack_HHHBB (slice response 0 8);
    let printed := [ResponseParsed resp_trans_id resp_unit_id resp_func_code] in
    if resp_func_code =? function_code then
      byte_count ← getitem response 8;
      let printed := printed ++ [DataByteCount byte_count] in
      if 9 + byte_count <=? Z.of_nat (length response) then
        let data := slice response 9 (9 + Z.to_nat byte_count) in
        let printed := printed ++ [RegisterData data] in
        registers ← for_each
          (fun i registers =>
             reg_value ← unpack_H (slice data i (i + 2));
             Returns (registers ++ [reg_value]))
          (range_by_2 (length data)) [];
        Returns (printed ++ [RegisterValues registers], true)
      else Returns (printed, false)
    else Returns (printed ++ [ErrorResponse resp_func_code], false)
  else Returns ([], false).

Definition simple_modbus_test (sock : transport) (host : string) (port : Z)
  : py_result bool :=
  try_except
    (req ← request;
     response ← sock host port req;
     registers ← parse response;
     Returns (bool_decide (is_Some registers)))
    false.

End SimpleModbusTest.

(** ** test_modbus_client.py *)

Module TestModbusClient.

(** What [client.read_holding_registers] hands back: a response with its
    register list, or a response for which [isError()] holds. *)
Inductive response : Type :=
  | Registers (registers : list Z)
  | ErrorResponse.

(** The pymodbus client during one pass of the loop: the address read
    decides what comes back; the call may also raise. *)
Definition client : Type := Z -> py_result response.

(** [registers[i]]. *)
Definition register (registers : list Z) (i : nat) : py_result Z :=
  match registers !! i with
  | Some r => Returns r
  | None => Raises IndexError
  end.

(** Lines 40-42 and 67-69. *)
Definition counter_value (registers : list Z) : py_result Z :=
  low_word ← register registers 0;
  high_word ← register registers 1;
  Returns (Z.lor (Z.shiftl high_word 16) low_word).

(** The line printed at line 76. *)
Inductive line : Type :=
  | Change (channel counter_value delta : Z).

(** The variables of the monitoring loop, with the addresses requested
    from the client so far. *)
Record state : Type := State {
  previous_values : gmap Z Z;
  printed : list line;
  requested : list Z
}.

Definition initial : state :=
  State ∅ [] [].

(** Lines 71-77, once [counter_value] is known. *)
Definition compare (channel value : Z) (st : state) : state :=
  let previous_values' :=
    match previous_values st !! channel with
    | None => <[channel := value]> (previous_values st)
    | Some _ => previous_values st
    end in
  let previous := default value (previous_values' !! channel) in
  if bool_decide (value ≠ previous) then
    let delta := value - previous in
    State (<[channel := value]> previous_values')
          (printed st ++ [Change channel value delta])
          (requested st)
  else
    State previous_values' (printed st) (requested st).

(** Lines 63-77: one channel of one pass.  The state reached is kept
    when an exception leaves the loop. *)
Definition monitor_channel (c : client) (channel : Z) (st : state)
  : state * option exn :=
  let base_address := channel * 2 in
  let st := State (previous_values st) (printed st)
                  (requested st ++ [base_address]) in
  match c base_address with
  | Raises e => (st, Some e)
  | Returns ErrorResponse => (st, None)
  | Returns (Registers registers) =>
      match counter_value registers with
      | Raises e => (st, Some e)
      | Returns value => (compare channel value st, None)
      end
  end.

(** Lines 62-77: [for channel in range(3)]. *)
Fixpoint monitor_channels (c : client) (channels : list Z) (st : state)
  : state * option exn :=
  match channels with
  | [] => (st, None)
  | channel :: rest =>
      match monitor_channel c channel st with
      | (st', None) => monitor_channels c rest st'
      | (st', Some e) => (st', Some e)
      end
  end.

Definition monitor_pass (c : client) (st : state) : state * option exn :=
  monitor_channels c [0; 1; 2] st.

(** Lines 61-79: the passes of [while True], one client behaviour per
    pass; an exception ends the loop (the handlers of lines 81-86 sit
    outside it). *)
Fixpoint monitor (passes : list client) (st : state) : state * option exn :=
  match passes with
  | [] => (st, None)
  | c :: rest =>
      match monitor_pass c st with
      | (st', None) => monitor rest st'
      | (st', Some e) => (st', Some e)
      end
  end.

(** A client whose channel 0 counter is [v] and whose other channels
    answer with an error response. *)
Definition channel0_reads (v : Z) : client :=
  fun address =>
    if address =? 0 then Returns (Registers [Z.land v 65535; Z.shiftr v 16])
    else Returns ErrorResponse.

(** The deltas of the lines printed for one channel, added up. *)
Definition delta_sum (channel : Z) (lines : list line) : Z :=
  fold_right
    (fun l acc =>
       match l with
       | Change ch _ delta => if ch =? channel then delta + acc else acc
       end)
    0 lines.

(** How a later state of the loop relates to an earlier one: lines are
    only added, none of them with delta 0, every stored channel stays
    stored, and its value has moved by the sum of the deltas printed for
    it. *)
Definition continues (st st' : state) : Prop :=
  exists new,
    printed st' = printed st ++ new
    /\ Forall (fun l => match l with Change _ _ delta => delta <> 0 end) new
    /\ forall k p, previous_values st !! k = Some p ->
         previous_values st' !! k = Some (p + delta_sum k new).

(** What the first part of [test_adam_simulator] prints. *)
Inductive listing : Type :=
  | ChannelValue (channel counter_value : Z)   (* line 43 *)
  | ChannelError (channel : Z)                 (* line 45 *)
  | DIChannel (i : nat) (on : bool)            (* line 53 *)
  | DIError.                                   (* line 55 *)

(** Lines 35-45: one channel of the counter listing. *)
Definition list_channel (c : client) (channel : Z) (out : list listing)
  : py_result (list listing) :=
  let base_address := channel * 2 in
  result ← c base_address;
  match result with
  | Registers registers =>
      value ← counter_value registers;
      Returns (out ++ [ChannelValue channel value])
  | ErrorResponse => Returns (out ++ [ChannelError channel])
  end.

(** Lines 33-45: [for channel in range(16)]. *)
Definition list_counters (c : client) (out : list listing)
  : py_result (list listing) :=
  for_each (list_channel c) (map Z.of_nat (seq 0 16)) out.

(** Lines 49-55: the digital inputs, 16 registers from address 64; a
    status is shown as ON when it is not zero. *)
Definition list_digital_inputs (c : client) (out : list listing)
  : py_result (list listing) :=
  result ← c 64;
  match result with
  | Registers registers =>
      Returns (out ++ imap (fun i status => DIChannel i (negb (status =? 0)))
                           registers)
  | ErrorResponse => Returns (out ++ [DIError])
  end.

(** Lines 29-55: the counters, then the digital inputs. *)
Definition list_device (c : client) : py_result (list listing) :=
  out ← list_counters c [];
  list_digital_inputs c out.

End TestModbusClient.

(** ** The register assembler of the specification *)

Module RegisterAssembler.

Inductive word_order : Type := LowFirst | HighFirst.

Inductive error : Type := InsufficientRegisters.

(** Modelled from the spec: [combine(registers, wordOrder)] with its
    word-order policy is missing from the scripts, which only have the
    two-argument [combine_32bit_counter] and always pass the second
    register as the high word.  Section 4.2: at least two registers are
    required; the registers are folded according to the word order, the
    first register being the least significant word under [LowFirst] and
    the most significant under [HighFirst]. *)
Definition combine (registers : list Z) (wordOrder : word_order)
  : error + Z :=
  if (length registers <? 2)%nat then inl InsufficientRegisters
  else
    match wordOrder with
    | LowFirst =>
        inr (fold_right
               (fun r acc => CheckRegisters.combine_32bit_counter acc r)
               0 registers)
    | HighFirst =>
        inr (fold_left
               (fun acc r => CheckRegisters.combine_32bit_counter acc r)
               registers 0)
    end.

End RegisterAssembler.

(** * Properties *)

(** ** Bytes and [struct] *)

Section StructFacts.
Import Struct.

Lemma byte_val_range (b : byte) : 0 <= byte_val b <= 255.
Proof.
  unfold byte_val. pose proof (Byte.to_N_bounded b). lia.
Qed.

Lemma byte_of_val (v : Z) :
  0 <= v <= 255 -> exists b, byte_of v = Returns b /\ byte_val b = v.
Proof.
  intros Hv. unfold byte_of.
  destruct (Byte.of_N (Z.to_N v)) as [b|] eqn:E.
  - exists b. split; [reflexivity|].
    apply Byte.to_of_N in E. unfold byte_val. lia.
  - apply Byte.of_N_None_iff in E. lia.
Qed.

Lemma byte_val_inj (a b : byte) : byte_val a = byte_val b -> a = b.
Proof.
  unfold byte_val. intros E.
  assert (E' : Byte.to_N a = Byte.to_N b) by lia.
  pose proof (Byte.of_to_N a) as Ha. rewrite E', Byte.of_to_N in Ha.
  congruence.
Qed.

Lemma pack_field_B (v : Z) :
  0 <= v <= 255 ->
  exists b, pack_field B v = Returns [b] /\ byte_val b = v.
Proof.
  intros Hv. destruct (byte_of_val v Hv) as (b & Eb & Vb).
  exists b. split; [|exact Vb]. cbn.
  destruct (Z.leb_spec 0 v), (Z.leb_spec v 255); try lia.
  cbn. rewrite Eb. reflexivity.
Qed.

Lemma pack_field_H (v : Z) :
  0 <= v <= 65535 ->
  exists hi lo, pack_field H v = Returns [hi; lo]
                /\ byte_val hi * 256 + byte_val lo = v.
Proof.
  intros Hv.
  assert (Hhi : 0 <= v / 256 <= 255).
  { assert (v / 256 < 256) by (apply Z.div_lt_upper_bound; lia).
  split; [apply Z.div_pos; lia | lia]. }
  assert (Hlo : 0 <= v mod 256 <= 255).
  { pose proof (Z.mod_pos_bound v 256). lia. }
  destruct (byte_of_val _ Hhi) as (hi & Ehi & Vhi).
  destruct (byte_of_val _ Hlo) as (lo & Elo & Vlo).
  exists hi, lo. split.
  - cbn. destruct (Z.leb_spec 0 v), (Z.leb_spec v 65535); try lia.
    cbn. rewrite Ehi. cbn. rewrite Elo. reflexivity.
  - rewrite Vhi, Vlo. pose proof (Z.div_mod v 256). lia.
Qed.

(** Outside its range a field raises. *)
Lemma pack_field_H_out (v : Z) :
  v < 0 \/ 65535 < v -> pack_field H v = Raises StructError.
Proof.
  intros Hv. cbn.
  destruct (Z.leb_spec 0 v), (Z.leb_spec v 65535); try lia; reflexivity.
Qed.

Lemma unpack_H_pair (hi lo : byte) :
  unpack_H [hi; lo] = Returns (byte_val hi * 256 + byte_val lo).
Proof. reflexivity. Qed.

End StructFacts.

(** ** The request encoders *)

Section Encoders.
Import Struct.

Lemma pack_cons (c : code) (fmt : list code) (v : Z) (args : list Z) :
  pack (c :: fmt) (v :: args)
  = (field ← pack_field c v; rest ← pack fmt args; Returns (field ++ rest)).
Proof. reflexivity. Qed.

(** X7. check-registers.py: for arguments in range the request is the
    twelve bytes of a Modbus TCP read: transaction id 1, protocol id 0,
    length 6, the unit id, function code 3 in one byte, then the start
    register and the count, each big-endian.  The count is not limited
    further: any 16-bit value is packed. *)
Lemma check_registers_request_layout (unit_id start_reg count : Z) :
  0 <= unit_id <= 255 -> 0 <= start_reg <= 65535 -> 0 <= count <= 65535 ->
  exists u s1 s0 c1 c0,
    CheckRegisters.request unit_id start_reg count
    = Returns [x00; x01; x00; x00; x00; x06; u; x03; s1; s0; c1; c0]
    /\ byte_val u = unit_id
    /\ byte_val s1 * 256 + byte_val s0 = start_reg
    /\ byte_val c1 * 256 + byte_val c0 = count.
Proof.
  intros Hu Hs Hc.
  destruct (pack_field_B _ Hu) as (u & Eu & Vu).
  destruct (pack_field_H _ Hs) as (s1 & s0 & Es & Vs).
  destruct (pack_field_H _ Hc) as (c1 & c0 & Ec & Vc).
  exists u, s1, s0, c1, c0. repeat split; try assumption.
  unfold CheckRegisters.request. rewrite !pack_cons, Eu, Es, Ec.
  reflexivity.
Qed.

(** test-modbus-connection.py: for arguments in range the request has
    thirteen bytes, the function code taking two of them. *)
Lemma create_modbus_read_request_layout (unit_id start_address register_count : Z) :
  0 <= unit_id <= 255 -> 0 <= start_address <= 65535 ->
  0 <= register_count <= 65535 ->
  exists u s1 s0 c1 c0,
    TestModbusConnection.create_modbus_read_request
      unit_id start_address register_count
    = Returns [x00; x01; x00; x00; x00; x06; u; x00; x03; s1; s0; c1; c0]
    /\ byte_val u = unit_id
    /\ byte_val s1 * 256 + byte_val s0 = start_address
    /\ byte_val c1 * 256 + byte_val c0 = register_count.
Proof.
  intros Hu Hs Hc.
  destruct (pack_field_B _ Hu) as (u & Eu & Vu).
  destruct (pack_field_H _ Hs) as (s1 & s0 & Es & Vs).
  destruct (pack_field_H _ Hc) as (c1 & c0 & Ec & Vc).
  exists u, s1, s0, c1, c0. repeat split; try assumption.
  unfold TestModbusConnection.create_modbus_read_request.
  rewrite !pack_cons, Eu, Es, Ec. reflexivity.
Qed.

(** A request that was packed with a leading [H] field holding 1 starts
    with the bytes 00 01. *)
Lemma pack_leading_one (fmt : list code) (args : list Z) (req : list byte) :
  pack (H :: fmt) (1 :: args) = Returns req ->
  exists rest, req = x00 :: x01 :: rest.
Proof.
  rewrite pack_cons. change (pack_field H 1) with (Returns [x00; x01]).
  cbn. destruct (pack fmt args) as [rest|e]; cbn; [|discriminate].
  intros [= <-]. eexists. reflexivity.
Qed.

End Encoders.

(** C1. The encoder of test-modbus-connection.py, asked for unit 1,
    start address 0 and 4 registers, returns thirteen bytes
    [00 01 00 00 00 06 01 00 03 00 00 00 04]: its format string packs the
    function code as a two-byte field.  The encoder of check-registers.py
    returns the twelve bytes [00 01 00 00 00 06 01 03 00 00 00 04] for the
    same arguments. *)
Theorem create_modbus_read_request_1_0_4 :
  TestModbusConnection.create_modbus_read_request 1 0 4
  = Returns [x00; x01; x00; x00; x00; x06; x01; x00; x03; x00; x00; x00; x04]
  /\ CheckRegisters.request 1 0 4
     = Returns [x00; x01; x00; x00; x00; x06; x01; x03; x00; x00; x00; x04].
Proof. split; reflexivity. Qed.

(** ** Transaction ids *)

Example transaction_ids_sent_5502 :
  CheckRegisters.transaction_ids_sent "localhost" 5502 = [Returns 1; Returns 1].
Proof. vm_compute. reflexivity. Qed.

(** C8, as stated, fails: check-registers.py reads the device at
    localhost:5502 twice, and the two consecutive requests carry the same
    transaction id 1, although no 16-bit wrap lies between them. *)
Lemma consecutive_reads_repeat_transaction_id :
  CheckRegisters.transaction_ids_sent "localhost" 5502 !! 0%nat = Some (Returns 1)
  /\ CheckRegisters.transaction_ids_sent "localhost" 5502 !! 1%nat = Some (Returns 1)
  /\ ~ (forall (i : nat) (a b : Z),
          CheckRegisters.transaction_ids_sent "localhost" 5502 !! i
            = Some (Returns a) ->
          CheckRegisters.transaction_ids_sent "localhost" 5502 !! S i
            = Some (Returns b) ->
          a <> b).
Proof.
  split; [reflexivity|]. split; [reflexivity|].
  intros Hfresh. apply (Hfresh 0%nat 1 1); reflexivity.
Qed.

(** C8, amended: every request the three socket scripts build carries the
    transaction id 1, whatever the unit, the address and the count; there
    is no per-session counter. *)
Theorem transaction_id_is_constant
    (unit_id start count : Z) (req : list byte) :
  CheckRegisters.request unit_id start count = Returns req
  \/ TestModbusConnection.create_modbus_read_request unit_id start count
     = Returns req
  \/ SimpleModbusTest.request = Returns req ->
  transaction_id_of req = Returns 1.
Proof.
  intros [E | [E | E]].
  - apply pack_leading_one in E as [rest ->]. reflexivity.
  - unfold TestModbusConnection.create_modbus_read_request in E.
    destruct (Struct.pack (_ :: _ :: _) _) as [head|e] eqn:Ehead in E;
      [|cbn in E; discriminate E].
    apply pack_leading_one in Ehead as [rest ->].
    destruct (Struct.pack [Struct.H] [count]) as [tail|e];
      cbn in E; [|discriminate E].
    injection E as <-. reflexivity.
  - injection E as <-. reflexivity.
Qed.

Lemma transaction_id_is_constant_witness :
  transaction_id_of
    [x00; x01; x00; x00; x00; x06; x01; x03; x00; x00; x00; x04] = Returns 1.
Proof.
  apply (transaction_id_is_constant 1 0 4). left. reflexivity.
Defined.

(** ** Loops over a byte string, two bytes at a time *)

Section Loops.
Import Struct.

Lemma list_pair_ind {A : Type} (P : list A -> Prop) :
  P [] -> (forall a, P [a]) -> (forall a b l, P l -> P (a :: b :: l)) ->
  forall l, P l.
Proof.
  intros H0 H1 H2.
  assert (Hboth : forall l, P l /\ forall a, P (a :: l)).
  { induction l as [|b l [IH1 IH2]]; split; auto. }
  intros l. apply Hboth.
Qed.

Lemma for_each_ext {I S : Type} (f g : I -> S -> py_result S) (items : list I) :
  (forall i s, In i items -> f i s = g i s) ->
  forall s, for_each f items s = for_each g items s.
Proof.
  induction items as [|i items IH]; intros Hfg s; [reflexivity|].
  cbn. rewrite Hfg by (left; reflexivity).
  destruct (g i s) as [s'|e]; cbn; [|reflexivity].
  apply IH. intros j t Hj. apply Hfg. right. exact Hj.
Qed.

Lemma for_each_map {I J S : Type} (h : I -> J) (f : J -> S -> py_result S)
    (items : list I) (s : S) :
  for_each f (map h items) s = for_each (fun i => f (h i)) items s.
Proof.
  revert s. induction items as [|i items IH]; intros s; [reflexivity|].
  cbn. destruct (f (h i) s); cbn; [apply IH | reflexivity].
Qed.

(** The even numbers from 2 on are the even numbers from 0 on, plus 2. *)
Lemma doubles_from_1 (m : nat) :
  map (fun k => 2 * k)%nat (seq 1 m)
  = map (fun k => S (S (2 * k)))%nat (seq 0 m).
Proof.
  rewrite <- seq_shift, map_map. apply map_ext. intros k. lia.
Qed.

Lemma range_by_2_succ_succ (n : nat) :
  range_by_2 (S (S n))
  = 0%nat :: map (fun k => S (S (2 * k)))%nat (seq 0 (Nat.div2 (S n))).
Proof.
  unfold range_by_2.
  change (Nat.div2 (S (S (S n)))) with (S (Nat.div2 (S n))).
  rewrite <- cons_seq. cbn [map]. rewrite doubles_from_1. reflexivity.
Qed.

Lemma range_by_2_double (m : nat) :
  range_by_2 (2 * m) = map (fun k => 2 * k)%nat (seq 0 m).
Proof.
  unfold range_by_2. rewrite Nat.div2_succ_double. reflexivity.
Qed.

Lemma range_by_2_double_succ (m : nat) :
  range_by_2 (S (2 * m)) = map (fun k => 2 * k)%nat (seq 0 (S m)).
Proof.
  unfold range_by_2.
  change (Nat.div2 (S (S (2 * m)))) with (S (Nat.div2 (2 * m))).
  rewrite Nat.div2_double. reflexivity.
Qed.

(** The reference list has one register per complete pair. *)
Lemma registers_of_bytes_length (data : list byte) :
  length (registers_of_bytes data) = (length data / 2)%nat.
Proof.
  induction data as [| a | a b data IH] using list_pair_ind;
    [reflexivity | reflexivity |].
  cbn [registers_of_bytes length]. rewrite IH.
  change (S (S (length data))) with (1 * 2 + length data)%nat.
  rewrite Nat.div_add_l by lia. reflexivity.
Qed.

(** Register [i] is made of bytes [2 i] and [2 i + 1], high byte first,
    and exists exactly when both bytes do. *)
Lemma registers_of_bytes_lookup (data : list byte) (i : nat) :
  registers_of_bytes data !! i
  = (hi ← data !! (2 * i)%nat;
     lo ← data !! (2 * i + 1)%nat;
     Some (byte_val hi * 256 + byte_val lo)).
Proof.
  revert i. induction data as [| a | a b data IH] using list_pair_ind;
    intros i.
  - reflexivity.
  - destruct i as [|i]; [reflexivity|].
    replace (2 * S i)%nat with (S (S (2 * i))) by lia. reflexivity.
  - destruct i as [|i]; [reflexivity|].
    replace (2 * S i + 1)%nat with (S (S (2 * i + 1))) by lia.
    replace (2 * S i)%nat with (S (S (2 * i))) by lia.
    cbn [registers_of_bytes]. rewrite !lookup_cons. apply IH.
Qed.

End Loops.

(** ** check-registers.py: reading registers *)

Section CheckRegistersFacts.
Import Struct CheckRegisters.

Lemma extract_values_loop (reg_data : list byte) (acc : list Z) :
  for_each
    (fun i values =>
       if (i + 1 <? length reg_data)%nat then
         val ← unpack_H (slice reg_data i (i + 2));
         Returns (values ++ [val])
       else Returns values)
    (range_by_2 (length reg_data)) acc
  = Returns (acc ++ registers_of_bytes reg_data).
Proof.
  revert acc.
  induction reg_data as [| a | a b data IH] using list_pair_ind; intros acc.
  - cbn. rewrite app_nil_r. reflexivity.
  - cbn. rewrite app_nil_r. reflexivity.
  - cbn [length]. rewrite range_by_2_succ_succ.
    cbn [for_each].
    change (0 + 1 <? S (S (length data)))%nat with true.
    change (slice (a :: b :: data) 0 (0 + 2)) with [a; b].
    rewrite unpack_H_pair. cbn [mbind py_bind].
    rewrite for_each_map.
    rewrite (for_each_ext _
      (fun i values =>
         if (2 * i + 1 <? length data)%nat then
           val ← unpack_H (slice data (2 * i) (2 * i + 2));
           Returns (values ++ [val])
         else Returns values)).
    + rewrite <- (for_each_map (fun k => 2 * k)%nat
        (fun i values =>
           if (i + 1 <? length data)%nat then
             val ← unpack_H (slice data i (i + 2));
             Returns (values ++ [val])
           else Returns values)).
      fold (range_by_2 (length data)). rewrite IH.
      rewrite <- app_assoc. reflexivity.
    + intros i s _. unfold slice.
      replace (S (S (2 * i)) + 2 - S (S (2 * i)))%nat with 2%nat by lia.
      replace (2 * i + 2 - 2 * i)%nat with 2%nat by lia.
      change (S (S (2 * i)) + 1 <? S (S (length data)))%nat
        with (2 * i + 1 <? length data)%nat.
      reflexivity.
Qed.

Lemma extract_values_spec (reg_data : list byte) :
  extract_values reg_data = Returns (registers_of_bytes reg_data).
Proof. unfold extract_values. apply extract_values_loop. Qed.

Lemma parse_spec (response : list byte) :
  parse response
  = Returns (if (length response <? 9)%nat then None
             else Some (registers_of_bytes (skipn 9 response))).
Proof.
  unfold parse. destruct (length response <? 9)%nat; [reflexivity|].
  rewrite extract_values_spec. reflexivity.
Qed.

End CheckRegistersFacts.

(** C9. [read_modbus_registers] always returns, with a register list or
    [None], and never raises: a failure to pack the request or a failure
    of the transport gives [None], and so does a response shorter than 9
    bytes.  A response of 9 bytes or more gives the big-endian pairs of
    the bytes from offset 9 on: [(len - 9) / 2] registers, register [i]
    made of bytes [9 + 2 i] and [10 + 2 i]; the byte at offset 8 plays no
    part, and a last unpaired byte is dropped. *)
Theorem read_modbus_registers_total
    (sock : transport) (host : string) (port : Z) (unit_id start_reg count : Z) :
  CheckRegisters.read_modbus_registers sock host port unit_id start_reg count
  = Returns
      match req ← CheckRegisters.request unit_id start_reg count;
            sock host port req with
      | Raises _ => None
      | Returns response =>
          if (length response <? 9)%nat then None
          else Some (registers_of_bytes (skipn 9 response))
      end
  /\ forall response : list byte,
       length (registers_of_bytes (skipn 9 response))
       = ((length response - 9) / 2)%nat
       /\ forall i : nat,
            registers_of_bytes (skipn 9 response) !! i
            = (hi ← response !! (9 + 2 * i)%nat;
               lo ← response !! (9 + 2 * i + 1)%nat;
               Some (Struct.byte_val hi * 256 + Struct.byte_val lo)).
Proof.
  split.
  - unfold CheckRegisters.read_modbus_registers, CheckRegisters.read_body.
    destruct (CheckRegisters.request unit_id start_reg count) as [req|e];
      [|reflexivity].
    cbn [mbind py_bind].
    destruct (sock host port req) as [response|e]; [|reflexivity].
    cbn [mbind py_bind]. rewrite parse_spec. reflexivity.
  - intros response. split.
    + rewrite registers_of_bytes_length, length_skipn. reflexivity.
    + intros i. rewrite registers_of_bytes_lookup, !lookup_drop.
      replace (9 + (2 * i + 1))%nat with (9 + 2 * i + 1)%nat by lia.
      reflexivity.
Qed.

Example read_modbus_registers_nine_bytes :
  CheckRegisters.parse [x00; x01; x00; x00; x00; x03; x01; x03; x00]
  = Returns (Some []).
Proof. reflexivity. Qed.

Example read_modbus_registers_odd_tail :
  CheckRegisters.parse
    [x00; x01; x00; x00; x00; x06; x01; x03; x02; x12; x34; x56]
  = Returns (Some [4660]).
Proof. reflexivity. Qed.

(** ** test-modbus-connection.py: parsing a response *)

Section ParseFacts.
Import Struct TestModbusConnection.

Lemma at_least_nine {A : Type} (l : list A) :
  (9 <= length l)%nat ->
  exists b0 b1 b2 b3 b4 b5 b6 b7 b8 rest,
    l = b0 :: b1 :: b2 :: b3 :: b4 :: b5 :: b6 :: b7 :: b8 :: rest.
Proof.
  intros Hlen.
  do 9 (destruct l as [|? l]; [cbn in Hlen; lia|]).
  repeat eexists.
Qed.

(** The parser once the nine leading bytes are named. *)
Lemma parse_modbus_response_unfold
    (t1 t0 p1 p0 l1 l0 u f c : byte) (rest : list byte) :
  let response := t1 :: t0 :: p1 :: p0 :: l1 :: l0 :: u :: f :: c :: rest in
  parse_modbus_response response
  = if negb (Z.land (byte_val f) 128 =? 0) then
      Returns (None, Some (ModbusError (Z.land (byte_val f) 127) (byte_val c)))
    else if byte_val f =? 3 then
      if Z.of_nat (length response) <? 9 + byte_val c then
        Returns (None, Some IncompleteResponseData)
      else
        registers ← read_registers response (byte_val c);
        Returns (Some registers, None)
    else Returns (None, Some (UnexpectedFunctionCode (byte_val f))).
Proof. reflexivity. Qed.

(** A function-code byte of 0x80 or more has bit 7 set. *)
Lemma high_bit_set (f : byte) :
  128 <= byte_val f -> (Z.land (byte_val f) 128 =? 0) = false.
Proof.
  intros Hf. pose proof (byte_val_range f) as Hr.
  apply Z.eqb_neq. intros Hland.
  assert (Hbit : Z.testbit (Z.land (byte_val f) 128) 7 = true).
  { rewrite Z.land_spec. change 128 with (2 ^ 7) at 1.
    rewrite Z.pow2_bits_true by lia. rewrite andb_true_r.
    apply Z.testbit_true; [lia|].
    change (2 ^ 7) with 128.
    assert (Hq : byte_val f / 128 = 1).
    { symmetry. apply (Z.div_unique_pos _ 128 1 (byte_val f - 128)); lia. }
    rewrite Hq. reflexivity. }
  rewrite Hland in Hbit. discriminate.
Qed.

(** The register loop only looks at the bytes from offset 9 on. *)
Lemma read_registers_tail (r1 r2 : list byte) (byte_count : Z) :
  skipn 9 r1 = skipn 9 r2 ->
  read_registers r1 byte_count = read_registers r2 byte_count.
Proof.
  intros Htail. unfold read_registers. apply for_each_ext.
  intros i s _. unfold slice.
  rewrite <- (drop_drop r1 i 9), <- (drop_drop r2 i 9), Htail. reflexivity.
Qed.

(** Whole pairs: [m] rounds of the loop over a byte string holding at
    least [2 m] bytes after offset 9 give the [m] big-endian pairs. *)
Lemma pairs_loop (data : list byte) (m : nat) (acc : list Z) :
  (2 * m <= length data)%nat ->
  for_each
    (fun i registers =>
       reg_value ← unpack_H (firstn 2 (skipn i data));
       Returns (registers ++ [reg_value]))
    (map (fun k => 2 * k)%nat (seq 0 m)) acc
  = Returns (acc ++ registers_of_bytes (firstn (2 * m) data)).
Proof.
  revert data acc. induction m as [|m IH]; intros data acc Hlen.
  - cbn. rewrite app_nil_r. reflexivity.
  - destruct data as [|a [|b data]]; [cbn in Hlen; lia | cbn in Hlen; lia |].
    rewrite <- cons_seq. cbn [map]. rewrite doubles_from_1.
    change (2 * 0)%nat with 0%nat. cbn [for_each].
    change (firstn 2 (skipn 0 (a :: b :: data))) with [a; b].
    rewrite unpack_H_pair. cbn [mbind py_bind].
    rewrite for_each_map.
    rewrite (for_each_ext _
      (fun i registers =>
         reg_value ← unpack_H (firstn 2 (skipn (2 * i) data));
         Returns (registers ++ [reg_value]))) by reflexivity.
    rewrite <- (for_each_map (fun k => 2 * k)%nat
      (fun i registers =>
         reg_value ← unpack_H (firstn 2 (skipn i data));
         Returns (registers ++ [reg_value]))).
    rewrite IH by (cbn in Hlen; lia).
    replace (2 * S m)%nat with (S (S (2 * m))) by lia.
    cbn [firstn registers_of_bytes]. rewrite <- app_assoc. reflexivity.
Qed.

Lemma read_registers_loop (response : list byte) (n : nat) :
  read_registers response (Z.of_nat n)
  = for_each
      (fun i registers =>
         reg_value ← unpack_H (firstn 2 (skipn i (skipn 9 response)));
         Returns (registers ++ [reg_value]))
      (range_by_2 n) [].
Proof.
  unfold read_registers. rewrite Nat2Z.id. apply for_each_ext.
  intros i s _. unfold slice. rewrite drop_drop.
  replace (11 + i - (9 + i))%nat with 2%nat by lia. reflexivity.
Qed.

(** An even byte count within the buffer: exactly the [byte_count] bytes
    after offset 9, as big-endian pairs. *)
Lemma read_registers_even (response : list byte) (m : nat) :
  (9 + 2 * m <= length response)%nat ->
  read_registers response (Z.of_nat (2 * m))
  = Returns (registers_of_bytes (firstn (2 * m) (skipn 9 response))).
Proof.
  intros Hlen. rewrite read_registers_loop, range_by_2_double.
  rewrite pairs_loop by (rewrite length_skipn; lia). reflexivity.
Qed.

(** An odd byte count with a further byte in the buffer: the loop takes
    that byte, at offset [9 + byte_count], as the low half of a last
    register. *)
Lemma read_registers_odd (response : list byte) (m : nat) :
  (9 + 2 * m + 2 <= length response)%nat ->
  read_registers response (Z.of_nat (S (2 * m)))
  = Returns (registers_of_bytes (firstn (2 * m + 2) (skipn 9 response))).
Proof.
  intros Hlen. rewrite read_registers_loop, range_by_2_double_succ.
  rewrite pairs_loop by (rewrite length_skipn; lia).
  replace (2 * S m)%nat with (2 * m + 2)%nat by lia. reflexivity.
Qed.

End ParseFacts.

Section ParseTheorems.
Import Struct TestModbusConnection.

(** X8. Function code 3 with an even byte count: too few bytes give
    "Incomplete response data", otherwise the registers are exactly the
    [byte_count] bytes after offset 9, as big-endian pairs in order;
    bytes after the counted ones are ignored. *)
Lemma parse_modbus_response_even_count
    (response : list byte) (c : byte) (m : nat) :
  response !! 7%nat = Some x03 -> response !! 8%nat = Some c ->
  byte_val c = Z.of_nat (2 * m) ->
  parse_modbus_response response
  = if (length response <? 9 + 2 * m)%nat then
      Returns (None, Some IncompleteResponseData)
    else
      Returns (Some (registers_of_bytes (firstn (2 * m) (skipn 9 response))),
               None).
Proof.
  intros H7 H8 Hc.
  assert (Hlen : (9 <= length response)%nat).
  { apply lookup_lt_Some in H8. lia. }
  destruct (at_least_nine response Hlen)
    as (t1 & t0 & p1 & p0 & l1 & l0 & u & f & c' & rest & ->).
  cbn in H7, H8. injection H7 as ->. injection H8 as ->.
  rewrite parse_modbus_response_unfold.
  change (negb (Z.land (byte_val x03) 128 =? 0)) with false.
  change (byte_val x03 =? 3) with true. cbv iota.
  rewrite Hc.
  destruct (Nat.ltb_spec
    (length (t1 :: t0 :: p1 :: p0 :: l1 :: l0 :: u :: x03 :: c :: rest))
    (9 + 2 * m)) as [Hshort | Hlong].
  - destruct (Z.ltb_spec
      (Z.of_nat (length (t1 :: t0 :: p1 :: p0 :: l1 :: l0 :: u :: x03 :: c :: rest)))
      (9 + Z.of_nat (2 * m))); [reflexivity | lia].
  - destruct (Z.ltb_spec
      (Z.of_nat (length (t1 :: t0 :: p1 :: p0 :: l1 :: l0 :: u :: x03 :: c :: rest)))
      (9 + Z.of_nat (2 * m))); [lia|].
    rewrite read_registers_even by exact Hlong. reflexivity.
Qed.

(** Function code 3 with an odd byte count and one more byte in the
    buffer: the last register takes its low half from the byte at offset
    [9 + byte_count], which the byte count does not cover. *)
Lemma parse_modbus_response_odd_count
    (response : list byte) (c : byte) (m : nat) :
  response !! 7%nat = Some x03 -> response !! 8%nat = Some c ->
  byte_val c = Z.of_nat (S (2 * m)) ->
  (9 + 2 * m + 2 <= length response)%nat ->
  parse_modbus_response response
  = Returns (Some (registers_of_bytes (firstn (2 * m + 2) (skipn 9 response))),
             None).
Proof.
  intros H7 H8 Hc Hlong.
  assert (Hlen : (9 <= length response)%nat) by lia.
  destruct (at_least_nine response Hlen)
    as (t1 & t0 & p1 & p0 & l1 & l0 & u & f & c' & rest & ->).
  cbn in H7, H8. injection H7 as ->. injection H8 as ->.
  rewrite parse_modbus_response_unfold.
  change (negb (Z.land (byte_val x03) 128 =? 0)) with false.
  change (byte_val x03 =? 3) with true. cbv iota.
  rewrite Hc.
  destruct (Z.ltb_spec
    (Z.of_nat (length (t1 :: t0 :: p1 :: p0 :: l1 :: l0 :: u :: x03 :: c :: rest)))
    (9 + Z.of_nat (S (2 * m)))); [lia|].
  rewrite read_registers_odd by exact Hlong. reflexivity.
Qed.

(** C4. On the 11-byte response [00 01 00 00 00 05 01 03 01 AB CD], whose
    byte count is 1, [parse_modbus_response] returns the register 0xABCD:
    the byte at offset 10, past the [9 + byteCount] bytes of the frame,
    supplies the low half, and changing that byte changes the result.
    When the buffer ends with the counted byte the loop raises
    [struct.error].  The loop of simple-modbus-test.py slices the counted
    bytes first and never reads past them. *)
Theorem parse_modbus_response_reads_past_byte_count :
  parse_modbus_response
    [x00; x01; x00; x00; x00; x05; x01; x03; x01; xab; xcd]
  = Returns (Some [43981], None)
  /\ parse_modbus_response
       [x00; x01; x00; x00; x00; x05; x01; x03; x01; xab; x00]
     = Returns (Some [43776], None)
  /\ parse_modbus_response
       [x00; x01; x00; x00; x00; x04; x01; x03; x01; xab]
     = Raises StructError
  /\ SimpleModbusTest.parse
       [x00; x01; x00; x00; x00; x05; x01; x03; x01; xab; xcd]
     = Raises StructError.
Proof. repeat split; reflexivity. Qed.

(** C5, as stated, fails for simple-modbus-test.py: for a response with
    function code 0x83 it prints the code as it is, 0x83 and not 3, and
    returns [False]; the exception code is not read, so the exception
    codes 2 and 5 give the same outcome. *)
Lemma simple_modbus_test_reports_raw_code :
  SimpleModbusTest.respond [x00; x01; x00; x00; x00; x03; x01; x83; x02]
  = Returns ([SimpleModbusTest.ResponseParsed 1 1 131;
              SimpleModbusTest.ErrorResponse 131], false)
  /\ SimpleModbusTest.respond [x00; x01; x00; x00; x00; x03; x01; x83; x05]
     = Returns ([SimpleModbusTest.ResponseParsed 1 1 131;
                 SimpleModbusTest.ErrorResponse 131], false)
  /\ Z.land 131 127 = 3 /\ 131 <> 3.
Proof. repeat split; try reflexivity. discriminate. Qed.

(** C5, amended.  For a response of at least 9 bytes whose function-code
    byte [f] has its high bit set, [parse_modbus_response] reports the
    Modbus error with function [f & 0x7F] and, as error code, the byte at
    offset 8, and returns no register list; for [f = 0x83] the function
    reported is 3.  simple-modbus-test.py returns no register list
    either, but it only prints the header and then the function code as
    it is, unmasked, and answers [False]: the byte at offset 8 is not
    read. *)
Theorem parse_modbus_response_exception
    (response : list byte) (f e : byte) :
  (9 <= length response)%nat ->
  response !! 7%nat = Some f -> response !! 8%nat = Some e ->
  128 <= byte_val f ->
  parse_modbus_response response
  = Returns (None, Some (ModbusError (Z.land (byte_val f) 127) (byte_val e)))
  /\ (f = x83 ->
      parse_modbus_response response
      = Returns (None, Some (ModbusError 3 (byte_val e))))
  /\ SimpleModbusTest.parse response = Returns None
  /\ exists trans_id unit,
       transaction_id_of response = Returns trans_id
       /\ getitem response 6 = Returns unit
       /\ SimpleModbusTest.respond response
          = Returns ([SimpleModbusTest.ResponseParsed trans_id unit (byte_val f);
                      SimpleModbusTest.ErrorResponse (byte_val f)], false).
Proof.
  intros Hlen H7 H8 Hf.
  destruct (at_least_nine response Hlen)
    as (t1 & t0 & p1 & p0 & l1 & l0 & u & f' & c & rest & ->).
  cbn in H7, H8. injection H7 as ->. injection H8 as ->.
  assert (E : parse_modbus_response
                (t1 :: t0 :: p1 :: p0 :: l1 :: l0 :: u :: f :: e :: rest)
              = Returns (None, Some (ModbusError (Z.land (byte_val f) 127)
                                                 (byte_val e)))).
  { rewrite parse_modbus_response_unfold, high_bit_set by exact Hf.
    reflexivity. }
  split; [exact E|]. split; [intros ->; exact E|].
  split.
  - unfold SimpleModbusTest.parse.
    change (9 <=? length (t1 :: t0 :: p1 :: p0 :: l1 :: l0 :: u :: f :: e :: rest))%nat
      with true.
    cbn [slice firstn skipn Nat.sub unpack_HHHBB mbind py_bind].
    unfold SimpleModbusTest.function_code.
    destruct (Z.eqb_spec (byte_val f) 3) as [E3|_]; [lia | reflexivity].
  - exists (byte_val t1 * 256 + byte_val t0), (byte_val u).
    split; [reflexivity|]. split; [reflexivity|].
    unfold SimpleModbusTest.respond.
    change (9 <=? length (t1 :: t0 :: p1 :: p0 :: l1 :: l0 :: u :: f :: e :: rest))%nat
      with true.
    cbn [slice firstn skipn Nat.sub unpack_HHHBB mbind py_bind].
    unfold SimpleModbusTest.function_code.
    destruct (Z.eqb_spec (byte_val f) 3) as [E3|_]; [lia | reflexivity].
Qed.

Lemma parse_modbus_response_exception_witness :
  parse_modbus_response [x00; x01; x00; x00; x00; x03; x01; x83; x02]
  = Returns (None, Some (ModbusError 3 2)).
Proof.
  refine (proj1 (parse_modbus_response_exception
    [x00; x01; x00; x00; x00; x03; x01; x83; x02] x83 x02 _ _ _ _)).
  - cbn. lia.
  - reflexivity.
  - reflexivity.
  - vm_compute. discriminate.
Defined.

End ParseTheorems.

(** ** The transaction id of a response *)

Section TransactionIdOfResponse.
Import Struct TestModbusConnection.

(** C2, as stated, fails: the request carries transaction id 1, the
    response carries transaction id 2 and is otherwise a well-formed
    function-3 frame, and [parse_modbus_response] returns its registers;
    [test_modbus_connection] then answers [True]. *)
Lemma parse_accepts_other_transaction_id :
  (req ← create_modbus_read_request 1 0 2; transaction_id_of req) = Returns 1
  /\ transaction_id_of
       [x00; x02; x00; x00; x00; x07; x01; x03; x04; x00; x64; x00; x00]
     = Returns 2
  /\ parse_modbus_response
       [x00; x02; x00; x00; x00; x07; x01; x03; x04; x00; x64; x00; x00]
     = Returns (Some [100; 0], None)
  /\ test_modbus_connection (fun _ => true)
       (fun _ _ _ =>
          Returns [x00; x02; x00; x00; x00; x07; x01; x03; x04;
                   x00; x64; x00; x00])
       "adam-simulator-1" 5502 1
     = Returns true.
Proof. repeat split; reflexivity. Qed.

(** C2, amended: [parse_modbus_response] takes no expected transaction
    id and never compares the one it unpacks: its result is the same
    whatever the two transaction-id bytes of the buffer are.  The same
    holds for the parsing in simple-modbus-test.py. *)
Theorem parse_modbus_response_ignores_transaction_id
    (t1 t0 u1 u0 : byte) (rest : list byte) :
  parse_modbus_response (t1 :: t0 :: rest)
  = parse_modbus_response (u1 :: u0 :: rest)
  /\ SimpleModbusTest.parse (t1 :: t0 :: rest)
     = SimpleModbusTest.parse (u1 :: u0 :: rest).
Proof.
  destruct rest as [|p1 [|p0 [|l1 [|l0 [|u [|f [|c rest]]]]]]];
    split; reflexivity.
Qed.

End TransactionIdOfResponse.

(** ** Assembling 32-bit counters *)

Section Counters.

(** With a 16-bit low word, shifting and or-ing is multiplying and
    adding. *)
Lemma lor_shiftl_16 (high low : Z) :
  0 <= low < 65536 -> Z.lor (Z.shiftl high 16) low = high * 65536 + low.
Proof.
  intros Hlow.
  assert (Hdisjoint : Z.land (Z.shiftl high 16) low = 0).
  { apply Z.bits_inj'. intros n Hn.
    rewrite Z.land_spec, Z.bits_0.
    destruct (Z.lt_ge_cases n 16) as [Hlt | Hge].
    - rewrite Z.shiftl_spec_low by exact Hlt. reflexivity.
    - destruct (Z.eq_dec low 0) as [-> | Hnz].
      + rewrite Z.bits_0. apply andb_false_r.
      + rewrite (Z.bits_above_log2 low n); [apply andb_false_r | lia |].
        apply Z.log2_lt_pow2; [lia|].
        apply Z.lt_le_trans with (2 ^ 16); [lia|].
        apply Z.pow_le_mono_r; lia. }
  rewrite <- Z.lxor_lor by exact Hdisjoint.
  rewrite <- Z.add_nocarry_lxor by exact Hdisjoint.
  rewrite Z.shiftl_mul_pow2 by lia. reflexivity.
Qed.

End Counters.

(** C10. For 16-bit registers [r0], [r1] the three scripts assemble the
    same counter, [r1 * 65536 + r0], the first register being the low
    word: [combine_32bit_counter(regs[1], regs[0])] in check-registers.py,
    [registers[1] << 16 | registers[0]] in test-modbus-connection.py and
    [(high_word << 16) | low_word] in test_modbus_client.py. *)
Theorem counter_assemblies_agree (r0 r1 : Z) :
  0 <= r0 < 65536 -> 0 <= r1 < 65536 ->
  CheckRegisters.combine_32bit_counter r1 r0 = r1 * 65536 + r0
  /\ CheckRegisters.report (Some [r0; r1])
     = [CheckRegisters.RawRegisters [r0; r1];
        CheckRegisters.Channel0 (r1 * 65536 + r0)]
  /\ TestModbusConnection.counter_value [r0; r1] = Some (r1 * 65536 + r0)
  /\ TestModbusClient.counter_value [r0; r1] = Returns (r1 * 65536 + r0).
Proof.
  intros H0 H1. pose proof (lor_shiftl_16 r1 r0 H0) as E.
  unfold CheckRegisters.combine_32bit_counter.
  repeat split; cbn; unfold CheckRegisters.combine_32bit_counter;
    rewrite ?E; reflexivity.
Qed.

Lemma counter_assemblies_agree_witness :
  CheckRegisters.combine_32bit_counter 2 1 = 131073
  /\ TestModbusConnection.counter_value [1; 2] = Some 131073
  /\ TestModbusClient.counter_value [1; 2] = Returns 131073.
Proof.
  destruct (counter_assemblies_agree 1 2) as (E1 & _ & E2 & E3); [lia | lia |].
  repeat split; assumption.
Defined.

(** C6. For two registers, [combine] under [LowFirst] is
    [registers[1] << 16 | registers[0]] and under [HighFirst] is
    [registers[0] << 16 | registers[1]]; so [combine [1; 0] LowFirst] is 1,
    [combine [0; 1] LowFirst] is 65536 and [combine [1; 0] HighFirst] is
    65536. *)
Theorem combine_two_registers (r0 r1 : Z) :
  RegisterAssembler.combine [r0; r1] RegisterAssembler.LowFirst
  = inr (Z.lor (Z.shiftl r1 16) r0)
  /\ RegisterAssembler.combine [r0; r1] RegisterAssembler.HighFirst
     = inr (Z.lor (Z.shiftl r0 16) r1)
  /\ RegisterAssembler.combine [1; 0] RegisterAssembler.LowFirst = inr 1
  /\ RegisterAssembler.combine [0; 1] RegisterAssembler.LowFirst = inr 65536
  /\ RegisterAssembler.combine [1; 0] RegisterAssembler.HighFirst = inr 65536.
Proof.
  repeat split; reflexivity.
Qed.

(** ** test_modbus_client.py: the monitoring loop *)

Section Monitor.
Import TestModbusClient.


Lemma monitor_channel_registers (c : client) (channel lo hi : Z)
    (rest : list Z) (st : state) :
  c (channel * 2) = Returns (Registers (lo :: hi :: rest)) ->
  monitor_channel c channel st
  = (compare channel (Z.lor (Z.shiftl hi 16) lo)
       (State (previous_values st) (printed st)
              (requested st ++ [channel * 2])), None).
Proof. intros E. unfold monitor_channel. rewrite E. reflexivity. Qed.


(** [compare] only touches the entry of its own channel. *)
Lemma compare_other (channel value k : Z) (st : state) :
  k <> channel ->
  previous_values (compare channel value st) !! k = previous_values st !! k.
Proof.
  intros Hk. unfold compare.
  destruct (previous_values st !! channel) as [p|] eqn:Ep;
    case_bool_decide; cbn [previous_values];
    rewrite ?lookup_insert_ne by congruence; reflexivity.
Qed.

(** What [compare] does, by cases on the stored value. *)
Lemma compare_cases (channel value : Z) (st : state) :
  compare channel value st
  = match previous_values st !! channel with
    | None =>
        State (<[channel := value]> (previous_values st))
              (printed st) (requested st)
    | Some previous =>
        if decide (value = previous) then
          State (previous_values st) (printed st) (requested st)
        else
          State (<[channel := value]> (previous_values st))
                (printed st ++ [Change channel value (value - previous)])
                (requested st)
    end.
Proof.
  unfold compare. destruct (previous_values st !! channel) as [p|] eqn:Ep.
  - rewrite Ep. cbn.
    case_bool_decide; case_decide; try congruence; reflexivity.
  - rewrite lookup_insert_eq. cbn.
    case_bool_decide; [congruence | reflexivity].
Qed.


End Monitor.

Section MonitorTheorems.
Import TestModbusClient.

(** C3, as stated, fails: for the counter values 100, 100, 150, 130 read
    on channel 0 in four passes, the first read stores 100 and prints
    nothing; the script has no snapshot line.  The lines printed over the
    four passes are only the two changes. *)
Lemma first_read_prints_nothing :
  printed (monitor [channel0_reads 100] initial).1 = []
  /\ previous_values (monitor [channel0_reads 100] initial).1 !! 0 = Some 100
  /\ printed (monitor (map channel0_reads [100; 100; 150; 130]) initial).1
     = [Change 0 150 50; Change 0 130 (-20)]
  /\ length (printed
       (monitor (map channel0_reads [100; 100; 150; 130]) initial).1) <> 3%nat.
Proof. repeat split; vm_compute; congruence. Qed.

(** C3, amended: a successful read of a channel with no stored value
    stores the value and prints nothing; a read equal to the stored value
    prints nothing and leaves the store as it is; a read of a different
    value [v] prints the change line with delta [v] minus the stored
    value, which may be negative, and stores [v].  The values 100, 100,
    150, 130 on channel 0 print nothing, nothing, the change to 150 with
    delta +50, and the change to 130 with delta -20. *)
Theorem monitor_channel_change_lines
    (c : client) (channel lo hi : Z) (rest : list Z) (st : state) :
  c (channel * 2) = Returns (Registers (lo :: hi :: rest)) ->
  monitor_channel c channel st
  = (let value := Z.lor (Z.shiftl hi 16) lo in
     match previous_values st !! channel with
     | None =>
         State (<[channel := value]> (previous_values st))
               (printed st) (requested st ++ [channel * 2])
     | Some previous =>
         if decide (value = previous) then
           State (previous_values st) (printed st)
                 (requested st ++ [channel * 2])
         else
           State (<[channel := value]> (previous_values st))
                 (printed st ++ [Change channel value (value - previous)])
                 (requested st ++ [channel * 2])
     end, None)
  /\ printed (monitor (map channel0_reads [100]) initial).1 = []
  /\ printed (monitor (map channel0_reads [100; 100]) initial).1 = []
  /\ printed (monitor (map channel0_reads [100; 100; 150]) initial).1
     = [Change 0 150 50]
  /\ printed (monitor (map channel0_reads [100; 100; 150; 130]) initial).1
     = [Change 0 150 50; Change 0 130 (-20)].
Proof.
  intros E. split.
  - rewrite (monitor_channel_registers _ _ _ _ _ _ E), compare_cases.
    reflexivity.
  - repeat split; vm_compute; reflexivity.
Qed.

Lemma monitor_channel_change_lines_witness :
  monitor_channel (channel0_reads 100) 0 initial
  = (State (<[0 := 100]> ∅) [] [0], None).
Proof.
  refine (proj1 (monitor_channel_change_lines
                   (channel0_reads 100) 0 100 0 [] initial _)).
  reflexivity.
Defined.






End MonitorTheorems.

(** * Further properties of the scripts *)

(** ** test-modbus-connection.py: every case of the parser *)

Section ParseCases.
Import Struct TestModbusConnection.

(** A function-code byte below 0x80 has bit 7 clear. *)
Lemma high_bit_clear (f : byte) :
  byte_val f < 128 -> (Z.land (byte_val f) 128 =? 0) = true.
Proof.
  intros Hf. pose proof (byte_val_range f) as Hr.
  apply Z.eqb_eq. apply Z.bits_inj'. intros n Hn.
  rewrite Z.land_spec, Z.bits_0.
  destruct (Z.eq_dec n 7) as [-> | Hne].
  - assert (Hbit : Z.testbit (byte_val f) 7 = false).
    { apply Z.testbit_false; [lia|].
      change (2 ^ 7) with 128. rewrite Z.div_small by lia. reflexivity. }
    rewrite Hbit. reflexivity.
  - change 128 with (2 ^ 7). rewrite Z.pow2_bits_false by lia.
    apply andb_false_r.
Qed.

(** An odd number of bytes: after the whole pairs, the last round of the
    loop finds a single byte and [struct.unpack] raises. *)
Lemma pairs_loop_odd (data : list byte) (m : nat) (acc : list Z) :
  length data = S (2 * m) ->
  for_each
    (fun i registers =>
       reg_value ← unpack_H (firstn 2 (skipn i data));
       Returns (registers ++ [reg_value]))
    (map (fun k => 2 * k)%nat (seq 0 (S m))) acc
  = Raises StructError.
Proof.
  revert data acc. induction m as [|m IH]; intros data acc Hlen.
  - destruct data as [|a [|b data]]; try discriminate Hlen. reflexivity.
  - destruct data as [|a [|b data]]; [discriminate Hlen | cbn in Hlen; lia |].
    rewrite <- cons_seq. cbn [map]. rewrite doubles_from_1.
    change (2 * 0)%nat with 0%nat. cbn [for_each].
    change (firstn 2 (skipn 0 (a :: b :: data))) with [a; b].
    rewrite unpack_H_pair. cbn [mbind py_bind].
    rewrite for_each_map.
    rewrite (for_each_ext _
      (fun i registers =>
         reg_value ← unpack_H (firstn 2 (skipn (2 * i) data));
         Returns (registers ++ [reg_value]))) by reflexivity.
    rewrite <- (for_each_map (fun k => 2 * k)%nat
      (fun i registers =>
         reg_value ← unpack_H (firstn 2 (skipn i data));
         Returns (registers ++ [reg_value]))).
    apply IH. cbn in Hlen. lia.
Qed.

Lemma read_registers_odd_exact (response : list byte) (m : nat) :
  length response = (9 + S (2 * m))%nat ->
  read_registers response (Z.of_nat (S (2 * m))) = Raises StructError.
Proof.
  intros Hlen. rewrite read_registers_loop, range_by_2_double_succ.
  apply pairs_loop_odd. rewrite length_skipn. lia.
Qed.

(** The register loop, for every byte count that passed the length
    check. *)
Lemma read_registers_cases (response : list byte) (n : nat) :
  (9 + n <= length response)%nat ->
  read_registers response (Z.of_nat n)
  = if Nat.even n then
      Returns (registers_of_bytes (firstn n (skipn 9 response)))
    else if (9 + n <? length response)%nat then
      Returns (registers_of_bytes (firstn (S n) (skipn 9 response)))
    else Raises StructError.
Proof.
  intros Hlen. destruct (Nat.even n) eqn:Heven.
  - apply Nat.even_spec in Heven as [m ->]. apply read_registers_even. lia.
  - assert (Hodd : Nat.odd n = true).
    { rewrite <- Nat.negb_even, Heven. reflexivity. }
    apply Nat.odd_spec in Hodd as [m ->].
    replace (2 * m + 1)%nat with (S (2 * m)) in * by lia.
    destruct (Nat.ltb_spec (9 + S (2 * m)) (length response)) as [Hlong | Hexact].
    + rewrite read_registers_odd by lia.
      replace (2 * m + 2)%nat with (S (S (2 * m))) by lia. reflexivity.
    + apply read_registers_odd_exact. lia.
Qed.

(** Every case of [parse_modbus_response] on a buffer of nine bytes or
    more. *)
Lemma parse_modbus_response_cases
    (t1 t0 p1 p0 l1 l0 u f c : byte) (rest : list byte) :
  let response := t1 :: t0 :: p1 :: p0 :: l1 :: l0 :: u :: f :: c :: rest in
  let n := Z.to_nat (byte_val c) in
  parse_modbus_response response
  = if 128 <=? byte_val f then
      Returns (None, Some (ModbusError (Z.land (byte_val f) 127) (byte_val c)))
    else if byte_val f =? 3 then
      if (length rest <? n)%nat then
        Returns (None, Some IncompleteResponseData)
      else if Nat.even n then
        Returns (Some (registers_of_bytes (firstn n rest)), None)
      else if (n <? length rest)%nat then
        Returns (Some (registers_of_bytes (firstn (S n) rest)), None)
      else Raises StructError
    else Returns (None, Some (UnexpectedFunctionCode (byte_val f))).
Proof.
  intros response n. pose proof (byte_val_range c) as Hc.
  assert (En : byte_val c = Z.of_nat n) by (unfold n; lia).
  subst response. rewrite parse_modbus_response_unfold.
  set (response := t1 :: t0 :: p1 :: p0 :: l1 :: l0 :: u :: f :: c :: rest).
  destruct (Z.leb_spec 128 (byte_val f)) as [Hhigh | Hlow].
  - rewrite high_bit_set by exact Hhigh. reflexivity.
  - rewrite high_bit_clear by exact Hlow. cbn [negb].
    destruct (byte_val f =? 3); [|reflexivity].
    assert (Elen : length response = (9 + length rest)%nat) by reflexivity.
    rewrite En, Elen.
    destruct (Nat.ltb_spec (length rest) n) as [Hshort | Hfits].
    + destruct (Z.ltb_spec (Z.of_nat (9 + length rest)) (9 + Z.of_nat n));
        [reflexivity | lia].
    + destruct (Z.ltb_spec (Z.of_nat (9 + length rest)) (9 + Z.of_nat n));
        [lia|].
      rewrite read_registers_cases by (rewrite Elen; lia).
      change (skipn 9 response) with rest. rewrite Elen.
      destruct (Nat.even n); [reflexivity|].
      destruct (Nat.ltb_spec n (length rest)) as [Hmore | Hexact].
      * destruct (Nat.ltb_spec (9 + n) (9 + length rest)); [reflexivity | lia].
      * destruct (Nat.ltb_spec (9 + n) (9 + length rest)); [lia | reflexivity].
Qed.

End ParseCases.

Section ParseExtras.
Import Struct TestModbusConnection.

(** X1. [parse_modbus_response] raises exactly when the function code is
    3, the byte count is odd and the buffer ends with the last counted
    byte; the exception is then [struct.error], and no other exception
    ever leaves the parser. *)
Theorem parse_modbus_response_raises_iff (response : list byte) (e : exn) :
  parse_modbus_response response = Raises e
  <-> e = StructError
      /\ exists c : byte,
           response !! 7%nat = Some x03 /\ response !! 8%nat = Some c
           /\ Nat.odd (Z.to_nat (byte_val c)) = true
           /\ length response = (9 + Z.to_nat (byte_val c))%nat.
Proof.
  destruct (Nat.lt_ge_cases (length response) 9) as [Hshort | Hlen].
  - split.
    + unfold parse_modbus_response.
      destruct (Nat.ltb_spec (length response) 9); [discriminate | lia].
    + intros (_ & c & _ & H8 & _). apply lookup_lt_Some in H8. lia.
  - destruct (at_least_nine response Hlen)
      as (t1 & t0 & p1 & p0 & l1 & l0 & u & f & c & rest & ->).
    rewrite parse_modbus_response_cases. cbn [lookup list_lookup length].
    destruct (Z.leb_spec 128 (byte_val f)) as [Hhigh | Hlow].
    { split; [discriminate|].
      intros (_ & c' & [= ->] & _). revert Hhigh. vm_compute. congruence. }
    destruct (Z.eqb_spec (byte_val f) 3) as [E3 | N3].
    2:{ split; [discriminate|].
        intros (_ & c' & [= ->] & _). exfalso. apply N3. reflexivity. }
    assert (f = x03) as -> by (apply byte_val_inj; exact E3).
    destruct (Nat.ltb_spec (length rest) (Z.to_nat (byte_val c)))
      as [Hinc | Hfits].
    { split; [discriminate|]. intros (_ & c' & _ & [= <-] & _ & El). lia. }
    destruct (Nat.even (Z.to_nat (byte_val c))) eqn:Heven.
    { split; [discriminate|].
      intros (_ & c' & _ & [= <-] & Hodd & _).
      rewrite <- Nat.negb_even, Heven in Hodd. discriminate. }
    destruct (Nat.ltb_spec (Z.to_nat (byte_val c)) (length rest))
      as [Hmore | Hexact].
    { split; [discriminate|]. intros (_ & c' & _ & [= <-] & _ & El). lia. }
    split.
    + intros [= <-]. split; [reflexivity|]. exists c.
      repeat split; [| lia].
      rewrite <- Nat.negb_even, Heven. reflexivity.
    + intros (-> & _). reflexivity.
Qed.

(** X2. Of the pair [(registers, error)] that [parse_modbus_response]
    returns exactly one component is set: a register list comes without
    an error text, and an error text without a register list. *)
Theorem parse_modbus_response_one_of
    (response : list byte) (registers : option (list Z))
    (error : option message) :
  parse_modbus_response response = Returns (registers, error) ->
  (exists regs, registers = Some regs /\ error = None)
  \/ (exists msg, registers = None /\ error = Some msg).
Proof.
  destruct (Nat.lt_ge_cases (length response) 9) as [Hshort | Hlen].
  - unfold parse_modbus_response.
    destruct (Nat.ltb_spec (length response) 9); [|lia].
    intros [= <- <-]. right. eexists. split; reflexivity.
  - destruct (at_least_nine response Hlen)
      as (t1 & t0 & p1 & p0 & l1 & l0 & u & f & c & rest & ->).
    rewrite parse_modbus_response_cases.
    repeat match goal with
           | |- context [if ?b then _ else _] => destruct b
           end;
      intros [= <- <-] || discriminate;
      first [ left; eexists; split; reflexivity
            | right; eexists; split; reflexivity ].
Qed.

Lemma parse_modbus_response_one_of_witness :
  (exists regs, Some [100; 0] = Some regs /\ @None message = None)
  \/ (exists msg, Some [100; 0] = @None (list Z) /\ @None message = Some msg).
Proof.
  apply (parse_modbus_response_one_of
    [x00; x01; x00; x00; x00; x07; x01; x03; x04; x00; x64; x00; x00]).
  reflexivity.
Defined.

(** X3. The parser looks at nothing in the first seven bytes: protocol
    id, length field and unit id of a response are never checked, and two
    buffers that agree from the function-code byte on get the same
    result. *)
Theorem parse_modbus_response_ignores_header (h1 h2 rest : list byte) :
  length h1 = 7%nat -> length h2 = 7%nat ->
  parse_modbus_response (h1 ++ rest) = parse_modbus_response (h2 ++ rest).
Proof.
  intros E1 E2.
  do 7 (destruct h1 as [|? h1]; [discriminate E1|]).
  do 7 (destruct h2 as [|? h2]; [discriminate E2|]).
  destruct h1; [|discriminate E1]. destruct h2; [|discriminate E2].
  cbn [app]. destruct rest as [|f [|c rest]]; reflexivity.
Qed.

Lemma parse_modbus_response_ignores_header_witness :
  parse_modbus_response
    ([x00; x01; x00; x00; x00; x05; x01] ++ [x03; x02; x12; x34])
  = parse_modbus_response
      ([xff; xff; xff; xff; xff; xff; xff] ++ [x03; x02; x12; x34]).
Proof.
  apply parse_modbus_response_ignores_header; reflexivity.
Defined.

End ParseExtras.

(** ** simple-modbus-test.py *)

Section SimpleModbusTestFacts.
Import Struct.

(** The loop of lines 56-58 on the sliced data: the big-endian pairs when
    the data has an even number of bytes, [struct.error] otherwise. *)
Lemma simple_loop (data : list byte) :
  for_each
    (fun i registers =>
       reg_value ← unpack_H (slice data i (i + 2));
       Returns (registers ++ [reg_value]))
    (range_by_2 (length data)) []
  = if Nat.even (length data) then Returns (registers_of_bytes data)
    else Raises StructError.
Proof.
  rewrite (for_each_ext _
    (fun i registers =>
       reg_value ← unpack_H (firstn 2 (skipn i data));
       Returns (registers ++ [reg_value]))).
  2:{ intros i s _. unfold slice.
      replace (i + 2 - i)%nat with 2%nat by lia. reflexivity. }
  destruct (Nat.even (length data)) eqn:Heven.
  - apply Nat.even_spec in Heven as [m Em].
    rewrite Em, range_by_2_double, pairs_loop by lia.
    rewrite <- Em, firstn_all. reflexivity.
  - assert (Hodd : Nat.odd (length data) = true).
    { rewrite <- Nat.negb_even, Heven. reflexivity. }
    apply Nat.odd_spec in Hodd as [m Em].
    replace (2 * m + 1)%nat with (S (2 * m)) in Em by lia.
    rewrite Em, range_by_2_double_succ. apply pairs_loop_odd. exact Em.
Qed.

(** Every case of the parsing in [simple_modbus_test] on a buffer of nine
    bytes or more. *)
Lemma simple_parse_cases (t1 t0 p1 p0 l1 l0 u f c : byte) (rest : list byte) :
  let n := Z.to_nat (byte_val c) in
  SimpleModbusTest.parse
    (t1 :: t0 :: p1 :: p0 :: l1 :: l0 :: u :: f :: c :: rest)
  = if byte_val f =? 3 then
      if (length rest <? n)%nat then Returns None
      else if Nat.even n then Returns (Some (registers_of_bytes (firstn n rest)))
      else Raises StructError
    else Returns None.
Proof.
  intros n. pose proof (byte_val_range c) as Hc.
  unfold SimpleModbusTest.parse.
  change (9 <=? length (t1 :: t0 :: p1 :: p0 :: l1 :: l0 :: u :: f :: c :: rest))%nat
    with true.
  cbn [slice firstn skipn Nat.sub unpack_HHHBB mbind py_bind].
  unfold SimpleModbusTest.function_code.
  destruct (byte_val f =? 3); [|reflexivity].
  change (getitem (t1 :: t0 :: p1 :: p0 :: l1 :: l0 :: u :: f :: c :: rest) 8)
    with (Returns (byte_val c)).
  cbn [mbind py_bind length]. fold n.
  destruct (Nat.ltb_spec (length rest) n) as [Hshort | Hfits].
  - match goal with
    | |- context [(?a <=? ?b)%Z] => destruct (Z.leb_spec a b)
    end; [lia | reflexivity].
  - match goal with
    | |- context [(?a <=? ?b)%Z] => destruct (Z.leb_spec a b)
    end; [|lia].
    replace (slice (t1 :: t0 :: p1 :: p0 :: l1 :: l0 :: u :: f :: c :: rest)
               9 (9 + n)) with (firstn n rest).
    2:{ unfold slice. replace (9 + n - 9)%nat with n by lia. reflexivity. }
    rewrite simple_loop, length_firstn, Nat.min_l by exact Hfits.
    destruct (Nat.even n); reflexivity.
Qed.

(** The reference list of a prefix is a prefix of the reference list. *)
Lemma registers_of_bytes_firstn (data : list byte) (m : nat) :
  registers_of_bytes data
  = registers_of_bytes (firstn (2 * m) data)
    ++ registers_of_bytes (skipn (2 * m) data).
Proof.
  revert data. induction m as [|m IH]; intros data; [reflexivity|].
  replace (2 * S m)%nat with (S (S (2 * m))) by lia.
  destruct data as [|a [|b data]]; [reflexivity | reflexivity |].
  cbn [firstn skipn registers_of_bytes app]. rewrite <- IH. reflexivity.
Qed.

(** The value returned along with the printed lines is [True] exactly
    when registers were parsed, and both raise together. *)
Lemma respond_parse (response : list byte) :
  match SimpleModbusTest.respond response, SimpleModbusTest.parse response with
  | Returns (_, ok), Returns registers => ok = bool_decide (is_Some registers)
  | Raises e, Raises e' => e = e'
  | _, _ => False
  end.
Proof.
  unfold SimpleModbusTest.respond, SimpleModbusTest.parse.
  destruct (9 <=? length response)%nat; [|reflexivity].
  destruct (unpack_HHHBB (slice response 0 8)) as [[[[[t p] l] u] f]|e];
    [|reflexivity].
  cbn [mbind py_bind].
  destruct (f =? SimpleModbusTest.function_code); [|reflexivity].
  destruct (getitem response 8) as [byte_count|e]; [|reflexivity].
  cbn [mbind py_bind].
  destruct (9 + byte_count <=? Z.of_nat (length response)); [|reflexivity].
  destruct (for_each _ _ _) as [registers|e]; reflexivity.
Qed.

End SimpleModbusTestFacts.

Section ParserAgreement.
Import Struct.

(** Packing [k] registers with [struct.pack('>' + 'H' * k, ...)] gives
    [2 k] bytes whose big-endian pairs are the registers. *)
Lemma pack_registers (k : nat) (regs : list Z) (data : list byte) :
  pack (repeat H k) regs = Returns data ->
  registers_of_bytes data = regs /\ length data = (2 * k)%nat.
Proof.
  revert regs data. induction k as [|k IH]; intros regs data.
  - destruct regs; cbn; [|discriminate]. intros [= <-]. split; reflexivity.
  - destruct regs as [|v regs]; [discriminate|].
    cbn [repeat]. rewrite pack_cons.
    destruct (Z_lt_ge_dec v 0) as [Hneg | Hpos];
      [rewrite pack_field_H_out by lia; discriminate|].
    destruct (Z_lt_ge_dec 65535 v) as [Hbig | Hsmall];
      [rewrite pack_field_H_out by lia; discriminate|].
    destruct (pack_field_H v) as (hi & lo & -> & Ev); [lia|].
    cbn [mbind py_bind].
    destruct (pack (repeat H k) regs) as [rest|e] eqn:Erest; [|discriminate].
    cbn [mbind py_bind app]. intros [= <-].
    destruct (IH regs rest Erest) as [Eregs Elen].
    cbn [registers_of_bytes length]. rewrite Eregs, Ev, Elen.
    split; [reflexivity | lia].
Qed.

(** X4. [simple_modbus_test] never raises.  It answers [True] exactly
    when the transport hands back, for the request
    [00 01 00 00 00 06 01 03 00 00 00 02], a response with function code
    3 whose byte count is even and covered by the bytes received. *)
Theorem simple_modbus_test_true_iff (sock : transport) (host : string)
    (port : Z) :
  (exists b, SimpleModbusTest.simple_modbus_test sock host port = Returns b)
  /\ (SimpleModbusTest.simple_modbus_test sock host port = Returns true
      <-> exists (response : list byte) (c : byte),
            sock host port
              [x00; x01; x00; x00; x00; x06; x01; x03; x00; x00; x00; x02]
            = Returns response
            /\ response !! 7%nat = Some x03 /\ response !! 8%nat = Some c
            /\ (9 + Z.to_nat (byte_val c) <= length response)%nat
            /\ Nat.even (Z.to_nat (byte_val c)) = true).
Proof.
  unfold SimpleModbusTest.simple_modbus_test.
  change SimpleModbusTest.request
    with (Returns (A := list byte)
            [x00; x01; x00; x00; x00; x06; x01; x03; x00; x00; x00; x02]).
  cbn [mbind py_bind].
  destruct (sock host port _) as [response|e] eqn:Esock.
  2:{ split; [eexists; reflexivity|]. split; [discriminate|].
      intros (r & c & [=] & _). }
  cbn [mbind py_bind].
  destruct (Nat.lt_ge_cases (length response) 9) as [Hshort | Hlen].
  { unfold SimpleModbusTest.parse.
    destruct (Nat.leb_spec 9 (length response)); [lia|].
    split; [eexists; reflexivity|]. split; [discriminate|].
    intros (r & c & [= <-] & _ & H8 & _).
    apply lookup_lt_Some in H8. lia. }
  destruct (at_least_nine response Hlen)
    as (t1 & t0 & p1 & p0 & l1 & l0 & u & f & c & rest & ->).
  rewrite simple_parse_cases. cbn [length].
  destruct (Z.eqb_spec (byte_val f) 3) as [E3 | N3].
  2:{ split; [eexists; reflexivity|]. split; [discriminate|].
      intros (r & c' & [= <-] & [= ->] & _). exfalso. apply N3. reflexivity. }
  assert (f = x03) as -> by (apply byte_val_inj; exact E3).
  destruct (Nat.ltb_spec (length rest) (Z.to_nat (byte_val c)))
    as [Hshort | Hfits].
  { split; [eexists; reflexivity|]. split; [discriminate|].
    intros (r & c' & [= <-] & _ & [= <-] & Hle & _). cbn in Hle. lia. }
  destruct (Nat.even (Z.to_nat (byte_val c))) eqn:Heven.
  - split; [eexists; reflexivity|]. split; [|reflexivity].
    intros _. eexists _, c. repeat split; cbn [length]; lia || exact Heven.
  - split; [eexists; reflexivity|]. split; [discriminate|].
    intros (r & c' & [= <-] & _ & [= <-] & _ & Heven').
    rewrite Heven in Heven'. discriminate.
Qed.

(** X5. The hand-written parsers agree: whenever the parsing of
    simple-modbus-test.py yields registers, [parse_modbus_response] yields
    the same registers and no error, and the parsing of
    check-registers.py yields them followed by the big-endian pairs of
    the bytes that come after the counted ones, that is from offset
    [9 + byte_count] on. *)
Theorem parsers_agree (response : list byte) (regs : list Z) :
  SimpleModbusTest.parse response = Returns (Some regs) ->
  TestModbusConnection.parse_modbus_response response
  = Returns (Some regs, None)
  /\ exists c : byte,
       response !! 8%nat = Some c
       /\ CheckRegisters.parse response
          = Returns
              (Some (regs
                     ++ registers_of_bytes
                          (skipn (9 + Z.to_nat (byte_val c)) response))).
Proof.
  destruct (Nat.lt_ge_cases (length response) 9) as [Hshort | Hlen].
  { unfold SimpleModbusTest.parse.
    destruct (Nat.leb_spec 9 (length response)); [lia | discriminate]. }
  destruct (at_least_nine response Hlen)
    as (t1 & t0 & p1 & p0 & l1 & l0 & u & f & c & rest & ->).
  rewrite simple_parse_cases, parse_modbus_response_cases, parse_spec.
  destruct (Z.eqb_spec (byte_val f) 3) as [E3 | N3]; [|discriminate].
  rewrite E3. change (128 <=? 3) with false. cbv iota.
  destruct (Nat.ltb_spec (length rest) (Z.to_nat (byte_val c)));
    [discriminate|].
  destruct (Nat.even (Z.to_nat (byte_val c))) eqn:Heven; [|discriminate].
  intros [= <-]. split; [reflexivity|].
  exists c. split; [reflexivity|].
  apply Nat.even_spec in Heven as [m Em]. rewrite Em.
  change (length _ <? 9)%nat with false. cbv iota.
  change (skipn (9 + 2 * m) (t1 :: t0 :: p1 :: p0 :: l1 :: l0 :: u :: f :: c :: rest))
    with (skipn (2 * m) rest).
  change (skipn 9 (t1 :: t0 :: p1 :: p0 :: l1 :: l0 :: u :: f :: c :: rest))
    with rest.
  rewrite <- registers_of_bytes_firstn. reflexivity.
Qed.

Lemma parsers_agree_witness :
  TestModbusConnection.parse_modbus_response
    [x00; x01; x00; x00; x00; x07; x01; x03; x02; x12; x34; x56; x78]
  = Returns (Some [4660], None)
  /\ exists c : byte,
       [x00; x01; x00; x00; x00; x07; x01; x03; x02; x12; x34; x56; x78]
         !! 8%nat = Some c
       /\ CheckRegisters.parse
            [x00; x01; x00; x00; x00; x07; x01; x03; x02; x12; x34; x56; x78]
          = Returns
              (Some ([4660]
                     ++ registers_of_bytes
                          (skipn (9 + Z.to_nat (byte_val c))
                             [x00; x01; x00; x00; x00; x07; x01; x03; x02;
                              x12; x34; x56; x78]))).
Proof.
  apply parsers_agree. reflexivity.
Defined.

(** X6. Round trip: a response made of any seven header bytes, function
    code 3, the byte count [2 k] and the [k] registers packed big-endian
    is parsed back to exactly these registers, by
    [parse_modbus_response], by check-registers.py and by
    simple-modbus-test.py. *)
Theorem packed_registers_parse_back
    (header : list byte) (c : byte) (k : nat) (regs : list Z)
    (data : list byte) :
  length header = 7%nat ->
  byte_val c = Z.of_nat (2 * k) ->
  pack (repeat H k) regs = Returns data ->
  TestModbusConnection.parse_modbus_response (header ++ x03 :: c :: data)
  = Returns (Some regs, None)
  /\ CheckRegisters.parse (header ++ x03 :: c :: data) = Returns (Some regs)
  /\ SimpleModbusTest.parse (header ++ x03 :: c :: data)
     = Returns (Some regs).
Proof.
  intros Eh Ec Epack.
  destruct (pack_registers k regs data Epack) as [Eregs Elen].
  do 7 (destruct header as [|? header]; [discriminate Eh|]).
  destruct header; [|discriminate Eh]. cbn [app].
  rewrite simple_parse_cases, parse_modbus_response_cases, parse_spec.
  change (byte_val x03 =? 3) with true. change (128 <=? byte_val x03) with false.
  change (length (_ :: _) <? 9)%nat with false.
  change (skipn 9 (_ :: _)) with data.
  cbv iota. rewrite Ec, Nat2Z.id, Elen, Nat.ltb_irrefl.
  assert (Heven : Nat.even (2 * k) = true).
  { apply Nat.even_spec. exists k. reflexivity. }
  rewrite Heven, <- Elen, firstn_all, Eregs.
  repeat split; reflexivity.
Qed.

Lemma packed_registers_parse_back_witness :
  TestModbusConnection.parse_modbus_response
    ([x00; x01; x00; x00; x00; x07; x01]
     ++ [x03; x04; x00; x64; x00; x00])
  = Returns (Some [100; 0], None)
  /\ CheckRegisters.parse
       ([x00; x01; x00; x00; x00; x07; x01]
        ++ [x03; x04; x00; x64; x00; x00])
     = Returns (Some [100; 0])
  /\ SimpleModbusTest.parse
       ([x00; x01; x00; x00; x00; x07; x01]
        ++ [x03; x04; x00; x64; x00; x00])
     = Returns (Some [100; 0]).
Proof.
  apply (packed_registers_parse_back
           [x00; x01; x00; x00; x00; x07; x01] x04 2 [100; 0]
           [x00; x64; x00; x00]); reflexivity.
Defined.

End ParserAgreement.

(** ** check-registers.py: requests, reports and counters *)

Section CheckRegistersExtras.
Import Struct CheckRegisters.

Lemma pack_field_B_out (v : Z) :
  v < 0 \/ 255 < v -> pack_field B v = Raises StructError.
Proof.
  intros Hv. cbn.
  destruct (Z.leb_spec 0 v), (Z.leb_spec v 255); try lia; reflexivity.
Qed.

Lemma check_registers_request_layout_witness :
  exists u s1 s0 c1 c0,
    request 1 0 4
    = Returns [x00; x01; x00; x00; x00; x06; u; x03; s1; s0; c1; c0]
    /\ byte_val u = 1
    /\ byte_val s1 * 256 + byte_val s0 = 0
    /\ byte_val c1 * 256 + byte_val c0 = 4.
Proof.
  apply (check_registers_request_layout 1 0 4); lia.
Defined.

(** X9. When the unit id is not a byte, or the start register or the
    count is not a 16-bit value, packing the request raises
    [struct.error] and [read_modbus_registers] returns [None], whatever
    the transport would have answered. *)
Theorem read_modbus_registers_out_of_range
    (sock : transport) (host : string) (port : Z) (unit_id start_reg count : Z) :
  ~ (0 <= unit_id <= 255 /\ 0 <= start_reg <= 65535 /\ 0 <= count <= 65535) ->
  request unit_id start_reg count = Raises StructError
  /\ read_modbus_registers sock host port unit_id start_reg count
     = Returns None.
Proof.
  intros Hout.
  assert (E : request unit_id start_reg count = Raises StructError).
  { unfold request. rewrite !pack_cons.
    change (pack_field H transaction_id) with (Returns [x00; x01]).
    change (pack_field H protocol_id) with (Returns [x00; x00]).
    change (pack_field H length_field) with (Returns [x00; x06]).
    change (pack_field B function_code) with (Returns [x03]).
    cbn [mbind py_bind].
    destruct (Z_lt_ge_dec unit_id 0);
      [rewrite pack_field_B_out by lia; reflexivity|].
    destruct (Z_lt_ge_dec 255 unit_id);
      [rewrite pack_field_B_out by lia; reflexivity|].
    destruct (pack_field_B unit_id) as (u & -> & _); [lia|].
    cbn [mbind py_bind].
    destruct (Z_lt_ge_dec start_reg 0);
      [rewrite (pack_field_H_out start_reg) by lia; reflexivity|].
    destruct (Z_lt_ge_dec 65535 start_reg);
      [rewrite (pack_field_H_out start_reg) by lia; reflexivity|].
    destruct (pack_field_H start_reg) as (s1 & s0 & -> & _); [lia|].
    cbn [mbind py_bind].
    rewrite (pack_field_H_out count) by lia. reflexivity. }
  split; [exact E|].
  unfold read_modbus_registers, read_body. rewrite E. reflexivity.
Qed.

Lemma read_modbus_registers_out_of_range_witness :
  request 256 0 4 = Raises StructError
  /\ read_modbus_registers (fun _ _ _ => Returns []) "localhost" 5502 256 0 4
     = Returns None.
Proof.
  apply read_modbus_registers_out_of_range. lia.
Defined.

(** X10. From the wire to the counters: when the device answers the
    request for 4 registers with nine bytes followed by the eight data
    bytes, the report shows the four registers, channel 0 as
    [regs[1] * 65536 + regs[0]] and channel 1 as
    [regs[3] * 65536 + regs[2]], each register being its two bytes read
    big-endian. *)
Theorem report_of_four_registers
    (sock : transport) (host : string) (port : Z) (header : list byte)
    (a1 a0 b1 b0 c1 c0 d1 d0 : byte) :
  length header = 9%nat ->
  sock host port [x00; x01; x00; x00; x00; x06; x01; x03; x00; x00; x00; x04]
  = Returns (header ++ [a1; a0; b1; b0; c1; c0; d1; d0]) ->
  let r0 := byte_val a1 * 256 + byte_val a0 in
  let r1 := byte_val b1 * 256 + byte_val b0 in
  let r2 := byte_val c1 * 256 + byte_val c0 in
  let r3 := byte_val d1 * 256 + byte_val d0 in
  (regs ← read_modbus_registers sock host port 1 0 4; Returns (report regs))
  = Returns [RawRegisters [r0; r1; r2; r3];
             Channel0 (r1 * 65536 + r0);
             Channel1 (r3 * 65536 + r2)].
Proof.
  intros Eh Esock r0 r1 r2 r3.
  unfold read_modbus_registers, read_body.
  change (request 1 0 4)
    with (Returns (A := list byte)
            [x00; x01; x00; x00; x00; x06; x01; x03; x00; x00; x00; x04]).
  cbn [mbind py_bind]. rewrite Esock. cbn [mbind py_bind].
  rewrite parse_spec.
  do 9 (destruct header as [|? header]; [discriminate Eh|]).
  destruct header; [|discriminate Eh].
  cbn. unfold combine_32bit_counter.
  pose proof (byte_val_range a1). pose proof (byte_val_range a0).
  pose proof (byte_val_range c1). pose proof (byte_val_range c0).
  rewrite !lor_shiftl_16 by lia. reflexivity.
Qed.

Lemma report_of_four_registers_witness :
  (regs ← read_modbus_registers
            (fun _ _ _ =>
               Returns ([x00; x01; x00; x00; x00; x0b; x01; x03; x08]
                        ++ [x00; x05; x00; x01; x00; x07; x00; x00]))
            "localhost" 5502 1 0 4;
   Returns (report regs))
  = Returns [RawRegisters [5; 1; 7; 0]; Channel0 65541; Channel1 7].
Proof.
  refine (report_of_four_registers _ "localhost" 5502
            [x00; x01; x00; x00; x00; x0b; x01; x03; x08]
            x00 x05 x00 x01 x00 x07 x00 x00 _ _); reflexivity.
Defined.

(** X11. A reply that holds no complete register (fewer than 11 bytes)
    is reported exactly like a failed exchange: "Failed to read
    registers". *)
Theorem report_failed_read
    (sock : transport) (host : string) (port : Z) (unit_id start_reg count : Z)
    (req : list byte) :
  request unit_id start_reg count = Returns req ->
  (exists e, sock host port req = Raises e)
  \/ (exists response,
        sock host port req = Returns response /\ (length response < 11)%nat) ->
  (regs ← read_modbus_registers sock host port unit_id start_reg count;
   Returns (report regs))
  = Returns [FailedToRead].
Proof.
  intros Ereq Hsock. unfold read_modbus_registers, read_body.
  rewrite Ereq. cbn [mbind py_bind].
  destruct Hsock as [[e ->] | (response & -> & Hlen)]; [reflexivity|].
  cbn [mbind py_bind]. rewrite parse_spec.
  do 11 (destruct response as [|? response]; [reflexivity|]).
  cbn in Hlen. lia.
Qed.

Lemma report_failed_read_witness :
  (regs ← read_modbus_registers
            (fun _ _ _ =>
               Returns [x00; x01; x00; x00; x00; x04; x01; x03; x01; xab])
            "localhost" 5502 1 0 4;
   Returns (report regs))
  = Returns [FailedToRead].
Proof.
  refine (report_failed_read _ "localhost" 5502 1 0 4
            [x00; x01; x00; x00; x00; x06; x01; x03; x00; x00; x00; x04]
            _ _); [reflexivity|].
  right. eexists. split; [reflexivity|]. cbn. lia.
Defined.

(** X13. For 16-bit words the assembled counter is a 32-bit value from
    which both words can be recovered, so distinct register pairs give
    distinct counters. *)
Theorem combine_32bit_counter_words (high_reg low_reg : Z) :
  0 <= high_reg < 65536 -> 0 <= low_reg < 65536 ->
  0 <= combine_32bit_counter high_reg low_reg < 4294967296
  /\ combine_32bit_counter high_reg low_reg / 65536 = high_reg
  /\ combine_32bit_counter high_reg low_reg mod 65536 = low_reg.
Proof.
  intros Hh Hl. unfold combine_32bit_counter.
  rewrite lor_shiftl_16 by exact Hl.
  split; [lia|]. split.
  - symmetry. apply (Z.div_unique_pos _ 65536 high_reg low_reg); lia.
  - symmetry. apply (Z.mod_unique_pos _ 65536 high_reg low_reg); lia.
Qed.

Lemma combine_32bit_counter_words_witness :
  0 <= combine_32bit_counter 2 1 < 4294967296
  /\ combine_32bit_counter 2 1 / 65536 = 2
  /\ combine_32bit_counter 2 1 mod 65536 = 1.
Proof.
  apply combine_32bit_counter_words; lia.
Defined.

End CheckRegistersExtras.

(** ** test_modbus_client.py: invariants of the monitoring loop *)

Section MonitorInvariants.
Import TestModbusClient.

Lemma delta_sum_app (k : Z) (l1 l2 : list line) :
  delta_sum k (l1 ++ l2) = delta_sum k l1 + delta_sum k l2.
Proof.
  induction l1 as [|[ch v d] l1 IH]; [reflexivity|].
  cbn. fold (delta_sum k (l1 ++ l2)). fold (delta_sum k l1).
  rewrite IH. destruct (ch =? k); lia.
Qed.

Lemma continues_refl (st : state) : continues st st.
Proof.
  exists []. rewrite app_nil_r. split; [reflexivity|]. split; [constructor|].
  intros k p E. rewrite E. cbn. f_equal. lia.
Qed.

Lemma continues_trans (st1 st2 st3 : state) :
  continues st1 st2 -> continues st2 st3 -> continues st1 st3.
Proof.
  intros (n1 & P1 & F1 & S1) (n2 & P2 & F2 & S2).
  exists (n1 ++ n2). split; [|split].
  - rewrite P2, P1, app_assoc. reflexivity.
  - apply Forall_app. split; assumption.
  - intros k p E. rewrite (S2 k _ (S1 k p E)), delta_sum_app.
    f_equal. lia.
Qed.

(** Recording a request changes neither the store nor the lines. *)
Lemma continues_requested (st : state) (req : list Z) :
  continues st (State (previous_values st) (printed st) req).
Proof.
  exists []. cbn [printed previous_values]. rewrite app_nil_r.
  split; [reflexivity|]. split; [constructor|].
  intros k p E. rewrite E. cbn. f_equal. lia.
Qed.

Lemma continues_compare (channel value : Z) (st : state) :
  continues st (compare channel value st).
Proof.
  rewrite compare_cases.
  destruct (previous_values st !! channel) as [previous|] eqn:Eprev.
  - case_decide as Esame.
    + apply continues_requested.
    + exists [Change channel value (value - previous)].
      cbn [printed previous_values]. split; [reflexivity|]. split.
      * constructor; [lia | constructor].
      * intros k p E. cbn. destruct (Z.eqb_spec channel k) as [-> | Hne].
        -- rewrite lookup_insert_eq. f_equal. rewrite Eprev in E.
           injection E as ->. lia.
        -- rewrite lookup_insert_ne by exact Hne. rewrite E. f_equal. lia.
  - exists []. cbn [printed previous_values]. rewrite app_nil_r.
    split; [reflexivity|]. split; [constructor|].
    intros k p E. rewrite lookup_insert_ne by congruence.
    rewrite E. cbn. f_equal. lia.
Qed.

Lemma continues_monitor_channel (c : client) (channel : Z) (st : state) :
  continues st (monitor_channel c channel st).1.
Proof.
  unfold monitor_channel.
  destruct (c (channel * 2)) as [[registers|]|e]; cbn [fst];
    try apply continues_requested.
  destruct (counter_value registers) as [value|e]; cbn [fst];
    [|apply continues_requested].
  eapply continues_trans; [apply continues_requested | apply continues_compare].
Qed.

Lemma continues_monitor_channels (c : client) (channels : list Z) (st : state) :
  continues st (monitor_channels c channels st).1.
Proof.
  revert st. induction channels as [|channel channels IH]; intros st.
  - apply continues_refl.
  - cbn [monitor_channels].
    pose proof (continues_monitor_channel c channel st) as Hstep.
    destruct (monitor_channel c channel st) as [st1 [e|]]; cbn [fst] in *.
    + exact Hstep.
    + eapply continues_trans; [exact Hstep | apply IH].
Qed.

Lemma continues_monitor (passes : list client) (st : state) :
  continues st (monitor passes st).1.
Proof.
  revert st. induction passes as [|c passes IH]; intros st.
  - apply continues_refl.
  - cbn [monitor]. unfold monitor_pass.
    pose proof (continues_monitor_channels c [0; 1; 2] st) as Hpass.
    destruct (monitor_channels c [0; 1; 2] st) as [st1 [e|]]; cbn [fst] in *.
    + exact Hpass.
    + eapply continues_trans; [exact Hpass | apply IH].
Qed.

(** X14. Over any number of passes, however they end, the lines printed
    so far are kept and lines are only added; every channel that had a
    stored value still has one, and its value has changed by exactly the
    sum of the deltas printed for that channel in between. *)
Theorem monitor_deltas_add_up (passes : list client) (st : state) :
  exists new,
    printed (monitor passes st).1 = printed st ++ new
    /\ forall k p, previous_values st !! k = Some p ->
         previous_values (monitor passes st).1 !! k
         = Some (p + delta_sum k new).
Proof.
  destruct (continues_monitor passes st) as (new & P & _ & S).
  exists new. split; assumption.
Qed.

(** X15. The monitoring loop never prints a change with delta 0. *)
Theorem monitor_never_prints_zero_delta
    (passes : list client) (channel value delta : Z) :
  In (Change channel value delta) (printed (monitor passes initial).1) ->
  delta <> 0.
Proof.
  destruct (continues_monitor passes initial) as (new & P & F & _).
  rewrite P. cbn [initial printed app]. intros Hin.
  rewrite Forall_forall in F. apply list_elem_of_In in Hin.
  apply (F _ Hin).
Qed.

Lemma monitor_never_prints_zero_delta_witness : 50 <> 0.
Proof.
  apply (monitor_never_prints_zero_delta
           (map channel0_reads [100; 150]) 0 150 50).
  vm_compute. left. reflexivity.
Defined.

End MonitorInvariants.

Section MonitorRepeat.
Import TestModbusClient.

Lemma compare_stores (channel value : Z) (st : state) :
  previous_values (compare channel value st) !! channel = Some value.
Proof.
  rewrite compare_cases.
  destruct (previous_values st !! channel) as [previous|] eqn:Eprev.
  - case_decide as Esame; cbn [previous_values].
    + rewrite Eprev, Esame. reflexivity.
    + apply lookup_insert_eq.
  - cbn [previous_values]. apply lookup_insert_eq.
Qed.

Lemma compare_same (channel value : Z) (st : state) :
  previous_values st !! channel = Some value ->
  compare channel value st = st.
Proof.
  intros E. rewrite compare_cases, E. case_decide; [|congruence].
  destruct st. reflexivity.
Qed.

(** The entry of a channel that is not monitored in a run of channels is
    not touched by it. *)
Lemma monitor_channels_other (c : client) (channels : list Z) (k : Z)
    (st : state) :
  ~ In k channels ->
  previous_values (monitor_channels c channels st).1 !! k
  = previous_values st !! k.
Proof.
  revert st. induction channels as [|channel channels IH]; intros st Hk;
    [reflexivity|].
  assert (Hne : k <> channel) by (intros ->; apply Hk; left; reflexivity).
  assert (Htail : ~ In k channels) by (intros Hin; apply Hk; right; exact Hin).
  cbn [monitor_channels]. unfold monitor_channel.
  destruct (c (channel * 2)) as [[registers|]|e]; cbn [fst];
    [| rewrite IH by exact Htail; reflexivity | reflexivity].
  destruct (counter_value registers) as [value|e]; cbn [fst];
    [|reflexivity].
  rewrite IH by exact Htail. rewrite compare_other by exact Hne. reflexivity.
Qed.

(** After a run that ended normally, every channel of the run either
    gave an error response or has its counter in the store. *)
Lemma monitor_channels_stored (c : client) (channels : list Z)
    (st st' : state) :
  NoDup channels ->
  monitor_channels c channels st = (st', None) ->
  forall channel, In channel channels ->
    c (channel * 2) = Returns ErrorResponse
    \/ exists registers value,
         c (channel * 2) = Returns (Registers registers)
         /\ counter_value registers = Returns value
         /\ previous_values st' !! channel = Some value.
Proof.
  revert st. induction channels as [|ch channels IH]; intros st Hnd Hrun;
    [intros ? []|].
  apply NoDup_cons in Hnd as [Hfresh Hnd].
  rewrite list_elem_of_In in Hfresh.
  cbn [monitor_channels] in Hrun. unfold monitor_channel in Hrun.
  destruct (c (ch * 2)) as [[registers|]|e] eqn:Ec; [| |discriminate Hrun].
  - destruct (counter_value registers) as [value|e] eqn:Ev;
      [|discriminate Hrun].
    intros channel [<- | Hin].
    + right. exists registers, value. repeat split; try assumption.
      pose proof (monitor_channels_other c channels ch
                    (compare ch value
                       (State (previous_values st) (printed st)
                              (requested st ++ [ch * 2]))) Hfresh) as Hkeep.
      rewrite Hrun in Hkeep. cbn [fst] in Hkeep.
      rewrite Hkeep. apply compare_stores.
    + apply (IH _ Hnd Hrun channel Hin).
  - intros channel [<- | Hin].
    + left. exact Ec.
    + apply (IH _ Hnd Hrun channel Hin).
Qed.

(** A run over channels whose counters are already in the store prints
    nothing and leaves the store as it is. *)
Lemma monitor_channels_silent (c : client) (channels : list Z) (st : state) :
  (forall channel, In channel channels ->
     c (channel * 2) = Returns ErrorResponse
     \/ exists registers value,
          c (channel * 2) = Returns (Registers registers)
          /\ counter_value registers = Returns value
          /\ previous_values st !! channel = Some value) ->
  monitor_channels c channels st
  = (State (previous_values st) (printed st)
           (requested st ++ map (fun channel => channel * 2) channels), None).
Proof.
  revert st. induction channels as [|ch channels IH]; intros st Hall.
  - cbn. rewrite app_nil_r. destruct st. reflexivity.
  - cbn [monitor_channels]. unfold monitor_channel.
    destruct (Hall ch (or_introl eq_refl))
      as [-> | (registers & value & -> & -> & Estored)].
    + rewrite IH by (intros channel Hin; apply Hall; right; exact Hin).
      cbn [previous_values printed requested map].
      rewrite <- app_assoc. reflexivity.
    + rewrite compare_same by exact Estored.
      rewrite IH by (intros channel Hin; apply Hall; right; exact Hin).
      cbn [previous_values printed requested map].
      rewrite <- app_assoc. reflexivity.
Qed.

(** X16. When the counters do not change, nothing is printed: a pass
    that follows a normally ended pass with the same answers from the
    device prints no line and leaves every stored value as it is; it only
    makes its three reads. *)
Theorem repeated_pass_is_silent (c : client) (st st' : state) :
  monitor_pass c st = (st', None) ->
  monitor_pass c st'
  = (State (previous_values st') (printed st') (requested st' ++ [0; 2; 4]),
     None).
Proof.
  unfold monitor_pass. intros Hrun.
  apply (monitor_channels_silent c [0; 1; 2] st').
  apply (monitor_channels_stored c [0; 1; 2] st st'); [|exact Hrun].
  repeat (apply NoDup_cons; split; [rewrite list_elem_of_In; cbn; lia|]).
  apply NoDup_nil. done.
Qed.

Lemma repeated_pass_is_silent_witness :
  monitor_pass (channel0_reads 100) (State (<[0 := 100]> ∅) [] [0; 2; 4])
  = (State (<[0 := 100]> ∅) [] ([0; 2; 4] ++ [0; 2; 4]), None).
Proof.
  apply (repeated_pass_is_silent (channel0_reads 100) initial). reflexivity.
Defined.

(** X17. The counter listing shows each of the 16 channels once, in
    order, when no read raises and every response that is not an error
    carries two registers: channel [k] is read at address [2 k] and shown
    with [registers[1] << 16 | registers[0]], or as an error; an error
    response does not end the listing. *)
Theorem list_counters_lines (c : client) (line_of : Z -> listing) :
  (forall channel, 0 <= channel < 16 ->
     (c (channel * 2) = Returns ErrorResponse
      /\ line_of channel = ChannelError channel)
     \/ exists lo hi rest,
          c (channel * 2) = Returns (Registers (lo :: hi :: rest))
          /\ line_of channel
             = ChannelValue channel (Z.lor (Z.shiftl hi 16) lo)) ->
  list_counters c [] = Returns (map line_of (map Z.of_nat (seq 0 16))).
Proof.
  intros Hreads. unfold list_counters.
  assert (Hgen : forall channels out,
            (forall channel, In channel channels -> 0 <= channel < 16) ->
            for_each (list_channel c) channels out
            = Returns (out ++ map line_of channels)).
  { induction channels as [|ch channels IH]; intros out Hrange.
    - cbn. rewrite app_nil_r. reflexivity.
    - cbn [for_each map].
      assert (Estep : list_channel c ch out = Returns (out ++ [line_of ch])).
      { unfold list_channel.
        destruct (Hreads ch (Hrange ch (or_introl eq_refl)))
          as [[-> ->] | (lo & hi & rest & -> & ->)]; reflexivity. }
      rewrite Estep. cbn [mbind py_bind].
      rewrite IH by (intros x Hx; apply Hrange; right; exact Hx).
      rewrite <- app_assoc. reflexivity. }
  rewrite Hgen; [reflexivity|].
  intros channel Hin. apply in_map_iff in Hin as (k & <- & Hk).
  apply in_seq in Hk. lia.
Qed.

Lemma list_counters_lines_witness :
  list_counters (fun _ => Returns ErrorResponse) []
  = Returns (map ChannelError (map Z.of_nat (seq 0 16))).
Proof.
  apply (list_counters_lines (fun _ => Returns ErrorResponse) ChannelError).
  intros channel _. left. split; reflexivity.
Defined.

End MonitorRepeat.

(** ** test-modbus-connection.py: the connection test *)

Section ConnectionTest.
Import Struct TestModbusConnection.

(** X18. [test_modbus_connection] raises only when the console cannot
    encode the host text printed at line 62, before the [try]; otherwise
    it returns, for every unit id.  It then answers [True] exactly when
    the unit id is a byte [u], the thirteen bytes
    [00 01 00 00 00 06 u 00 03 00 00 00 02] were sent, and the response
    has function code 3 and a byte count covered by the bytes received
    that is even or followed by at least one more byte. *)
Theorem test_modbus_connection_outcome
    (stdout : string -> bool) (sock : transport) (host : string) (port : Z)
    (unit_id : Z) :
  (stdout host = false
   /\ test_modbus_connection stdout sock host port unit_id
      = Raises UnicodeEncodeError)
  \/ (stdout host = true
      /\ exists b,
           test_modbus_connection stdout sock host port unit_id = Returns b
           /\ (b = true
               <-> exists (u : byte) (response : list byte) (c : byte),
                     byte_val u = unit_id
                     /\ sock host port
                          [x00; x01; x00; x00; x00; x06; u;
                           x00; x03; x00; x00; x00; x02]
                        = Returns response
                     /\ response !! 7%nat = Some x03
                     /\ response !! 8%nat = Some c
                     /\ (9 + Z.to_nat (byte_val c) <= length response)%nat
                     /\ (Nat.even (Z.to_nat (byte_val c)) = true
                         \/ (9 + Z.to_nat (byte_val c)
                             < length response)%nat))).
Proof.
  unfold test_modbus_connection, print.
  destruct (stdout host); [right | left; split; reflexivity].
  split; [reflexivity|]. cbn [mbind py_bind].
  destruct (Z_lt_ge_dec unit_id 0) as [Hneg | Hpos];
    [| destruct (Z_lt_ge_dec 255 unit_id) as [Hbig | Hsmall]].
  1,2: assert (Eout : create_modbus_read_request unit_id 0 2
                      = Raises StructError)
         by (unfold create_modbus_read_request; rewrite !pack_cons;
             change (pack_field H transaction_id) with (Returns [x00; x01]);
             change (pack_field H protocol_id) with (Returns [x00; x00]);
             change (pack_field H length_field) with (Returns [x00; x06]);
             cbn [mbind py_bind];
             rewrite pack_field_B_out by lia; reflexivity);
       rewrite Eout; exists false; split; [reflexivity|];
       split; [discriminate|];
       intros (u & _ & _ & Eu & _); pose proof (byte_val_range u); lia.
  destruct (byte_of_val unit_id) as (u & _ & Eu); [lia|]. subst unit_id.
  assert (Ereq : create_modbus_read_request (byte_val u) 0 2
                 = Returns [x00; x01; x00; x00; x00; x06; u;
                            x00; x03; x00; x00; x00; x02]).
  { pose proof (byte_val_range u) as Hu.
    destruct (create_modbus_read_request_layout (byte_val u) 0 2)
      as (u' & s1 & s0 & c1 & c0 & E & Eu & Es & Ec); try lia.
    apply byte_val_inj in Eu as ->.
    pose proof (byte_val_range s1). pose proof (byte_val_range s0).
    pose proof (byte_val_range c1). pose proof (byte_val_range c0).
    assert (s1 = x00) as -> by (apply byte_val_inj; change (byte_val x00) with 0; lia).
    assert (s0 = x00) as -> by (apply byte_val_inj; change (byte_val x00) with 0; lia).
    assert (c1 = x00) as -> by (apply byte_val_inj; change (byte_val x00) with 0; lia).
    assert (c0 = x02) as -> by (apply byte_val_inj; change (byte_val x02) with 2; lia).
    exact E. }
  rewrite Ereq. cbn [mbind py_bind].
  destruct (sock host port _) as [response|e] eqn:Esock.
  2:{ exists false. split; [reflexivity|]. split; [discriminate|].
      intros (u' & r & c & Eu & Es & _). apply byte_val_inj in Eu as ->.
      rewrite Esock in Es. discriminate Es. }
  cbn [mbind py_bind].
  destruct (Nat.lt_ge_cases (length response) 9) as [Hshort | Hlen].
  { unfold parse_modbus_response.
    destruct (Nat.ltb_spec (length response) 9); [|lia].
    exists false. split; [reflexivity|]. split; [discriminate|].
    intros (u' & r & c & Eu & Es & _ & H8 & _).
    apply byte_val_inj in Eu as ->. rewrite Esock in Es. injection Es as <-.
    apply lookup_lt_Some in H8. lia. }
  destruct (at_least_nine response Hlen)
    as (t1 & t0 & p1 & p0 & l1 & l0 & u1 & f & c & rest & ->).
  rewrite parse_modbus_response_cases. cbn [length].
  destruct (Z.leb_spec 128 (byte_val f)) as [Hhigh | Hlow].
  { exists false. split; [reflexivity|]. split; [discriminate|].
    intros (u' & r & c' & Eu & Es & H7 & _).
    apply byte_val_inj in Eu as ->. rewrite Esock in Es. injection Es as <-.
    injection H7 as ->. revert Hhigh. vm_compute. congruence. }
  destruct (Z.eqb_spec (byte_val f) 3) as [E3 | N3].
  2:{ exists false. split; [reflexivity|]. split; [discriminate|].
      intros (u' & r & c' & Eu & Es & H7 & _).
      apply byte_val_inj in Eu as ->. rewrite Esock in Es. injection Es as <-.
      injection H7 as ->. exfalso. apply N3. reflexivity. }
  assert (f = x03) as -> by (apply byte_val_inj; exact E3).
  destruct (Nat.ltb_spec (length rest) (Z.to_nat (byte_val c)))
    as [Hinc | Hfits].
  { exists false. split; [reflexivity|]. split; [discriminate|].
    intros (u' & r & c' & Eu & Es & _ & H8 & Hle & _).
    apply byte_val_inj in Eu as ->. rewrite Esock in Es. injection Es as <-.
    injection H8 as <-. cbn in Hle. lia. }
  destruct (Nat.even (Z.to_nat (byte_val c))) eqn:Heven.
  { exists true. split; [reflexivity|]. split; [|reflexivity].
    intros _.
    exists u, (t1 :: t0 :: p1 :: p0 :: l1 :: l0 :: u1 :: x03 :: c :: rest), c.
    split; [reflexivity|]. split; [exact Esock|].
    split; [reflexivity|]. split; [reflexivity|].
    split; [cbn [length]; lia | left; exact Heven]. }
  destruct (Nat.ltb_spec (Z.to_nat (byte_val c)) (length rest))
    as [Hmore | Hexact].
  { exists true. split; [reflexivity|]. split; [|reflexivity].
    intros _.
    exists u, (t1 :: t0 :: p1 :: p0 :: l1 :: l0 :: u1 :: x03 :: c :: rest), c.
    split; [reflexivity|]. split; [exact Esock|].
    split; [reflexivity|]. split; [reflexivity|].
    split; [cbn [length]; lia | right; cbn [length]; lia]. }
  exists false. split; [reflexivity|]. split; [discriminate|].
  intros (u' & r & c' & Eu & Es & _ & H8 & _ & [Hev | Hlt]);
    apply byte_val_inj in Eu as ->; rewrite Esock in Es; injection Es as <-;
    injection H8 as <-.
  - rewrite Heven in Hev. discriminate Hev.
  - cbn in Hlt. lia.
Qed.

End ConnectionTest.

Section ParseWitnesses.
Import Struct TestModbusConnection.

Lemma parse_modbus_response_even_count_witness :
  parse_modbus_response
    [x00; x01; x00; x00; x00; x05; x01; x03; x02; x12; x34; x56]
  = Returns (Some [4660], None).
Proof.
  refine (parse_modbus_response_even_count
            [x00; x01; x00; x00; x00; x05; x01; x03; x02; x12; x34; x56]
            x02 1 _ _ _); reflexivity.
Defined.

End ParseWitnesses.
